(** * Compound disaster risk scoring: a shallow embedding of
    [src/core_analytics.py] (class [CompoundDisasterAnalytics]).

    Number model.  Python [int] and [float] values are embedded as exact
    rationals ([Q]); every arithmetic operation is the exact one and
    [round(x, 3)] is round-half-to-even on the exact value.  The binary64
    rounding error of the real interpreter is therefore not represented,
    and neither are [nan] and the infinities.

    Dynamic typing.  The values a caller can put in [input_data] are
    Python objects; comparisons and arithmetic on a non-number raise
    [TypeError], which [predict_compound_risk] catches.  The operations
    below therefore live in an error monad over a small universe of
    Python values. *)

From Stdlib Require Import QArith Qminmax Qround Lqa ZArith Lia.
From stdpp Require Import gmap strings.

Local Open Scope string_scope.
Local Open Scope list_scope.

(** ** Python values *)

(** A number carries its Python type, which only the text of a
    [TypeError] shows, and its exact value.  ([VNum KInt q] with [q] not
    an integer does not arise from Python; nothing below depends on its
    absence.) *)
Inductive numkind := KInt | KFloat.

Inductive value :=
| VNum (k : numkind) (q : Q)
| VBool (b : bool)
| VStr (s : string)
| VList (l : list string)
| VNone.

Inductive exn :=
| TypeError (msg : string)
| ZeroDivisionError (msg : string).

Definition str (e : exn) : string :=
  match e with
  | TypeError msg => msg
  | ZeroDivisionError msg => msg
  end.

Inductive result (A : Type) :=
| Ok (a : A)
| Raise (e : exn).
Arguments Ok {A} a.
Arguments Raise {A} e.

Definition bind {A B : Type} (m : result A) (f : A -> result B) : result B :=
  match m with
  | Ok a => f a
  | Raise e => Raise e
  end.

Notation "'do' x <- m ; k" := (bind m (fun x => k))
  (at level 10, x name, m at level 100, k at level 200).

Definition type_name (v : value) : string :=
  match v with
  | VNum KInt _ => "int"
  | VNum KFloat _ => "float"
  | VBool _ => "bool"
  | VStr _ => "str"
  | VList _ => "list"
  | VNone => "NoneType"
  end.

(** [bool] is a subclass of [int]: [True] counts as 1 and [False] as 0. *)
Definition as_num (v : value) : option (numkind * Q) :=
  match v with
  | VNum k q => Some (k, q)
  | VBool b => Some (KInt, if b then 1%Q else 0%Q)
  | _ => None
  end.

Definition Qltb (a b : Q) : bool := negb (Qle_bool b a).

(** Every ordering comparison of the program has a numeric literal or a
    numeric threshold on one side, so the only outcomes are the numeric
    comparison and [TypeError]. *)
Definition py_compare (op : string) (f : Q -> Q -> bool) (l r : value)
  : result bool :=
  match as_num l, as_num r with
  | Some (_, a), Some (_, b) => Ok (f a b)
  | _, _ =>
      Raise (TypeError ("'" +:+ op +:+ "' not supported between instances of '"
                        +:+ type_name l +:+ "' and '" +:+ type_name r +:+ "'"))
  end.

Definition py_ge := py_compare ">=" (fun a b => Qle_bool b a).
Definition py_gt := py_compare ">" (fun a b => Qltb b a).
Definition py_le := py_compare "<=" (fun a b => Qle_bool a b).
Definition py_lt := py_compare "<" (fun a b => Qltb a b).

Definition join_kind (k1 k2 : numkind) : numkind :=
  match k1, k2 with
  | KInt, KInt => KInt
  | _, _ => KFloat
  end.

Definition py_arith (op : string) (f : Q -> Q -> Q) (l r : value)
  : result value :=
  match as_num l, as_num r with
  | Some (k1, a), Some (k2, b) => Ok (VNum (join_kind k1 k2) (f a b))
  | _, _ =>
      Raise (TypeError ("unsupported operand type(s) for " +:+ op +:+ ": '"
                        +:+ type_name l +:+ "' and '" +:+ type_name r +:+ "'"))
  end.

Definition py_add := py_arith "+" Qplus.
Definition py_sub := py_arith "-" Qminus.
Definition py_mul := py_arith "*" Qmult.

(** True division: the quotient is a float whatever the operands are. *)
Definition py_div (l r : value) : result value :=
  match as_num l, as_num r with
  | Some (_, a), Some (_, b) =>
      if Qeq_bool b 0 then Raise (ZeroDivisionError "division by zero")
      else Ok (VNum KFloat (a / b)%Q)
  | _, _ =>
      Raise (TypeError ("unsupported operand type(s) for /: '"
                        +:+ type_name l +:+ "' and '" +:+ type_name r +:+ "'"))
  end.

(** [min(a, b)] keeps [a] unless [b < a]; [max(a, b)] keeps [a] unless
    [b > a]. *)
Definition py_min (a b : value) : result value :=
  do c <- py_lt b a; Ok (if c then b else a).
Definition py_max (a b : value) : result value :=
  do c <- py_gt b a; Ok (if c then b else a).

(** [x and y] on comparisons: [y] is evaluated only when [x] is true. *)
Definition py_and (x y : result bool) : result bool :=
  do c <- x; if c then y else Ok false.

(** [round(x, 3)]: round half to even at the third decimal. *)
Definition round_half_even (x : Q) : Z :=
  let f := Qfloor x in
  match (x - inject_Z f ?= 1 # 2)%Q with
  | Lt => f
  | Gt => (f + 1)%Z
  | Eq => if Z.even f then f else (f + 1)%Z
  end.

Definition round3 (x : Q) : Q := round_half_even (x * 1000) # 1000.

Definition py_round3 (v : value) : result value :=
  match as_num v with
  | Some (k, q) => Ok (VNum k (round3 q))
  | None =>
      Raise (TypeError ("type " +:+ type_name v
                        +:+ " doesn't define __round__ method"))
  end.

(** ** The engine object

    [__init__] also creates [risk_model], [anomaly_detector] and [scaler];
    no method below reads them, so the record leaves them out.
    [risk_thresholds] is a dict that [_get_risk_level] iterates in
    insertion order: an association list. *)

Record CompoundDisasterAnalytics := {
  heat_threshold_temp : value;
  heat_threshold_duration : value;
  flood_threshold_precipitation : value;
  infrastructure_critical_threshold : value;
  risk_thresholds : list (string * (Q * Q))
}.

Definition __init__ : CompoundDisasterAnalytics := {|
  heat_threshold_temp := VNum KFloat 95.0;
  heat_threshold_duration := VNum KInt 3;
  flood_threshold_precipitation := VNum KFloat 2.0;
  infrastructure_critical_threshold := VNum KInt 1800;
  risk_thresholds :=
    [ ("Low", (0.0, 0.3)%Q);
      ("Moderate", (0.3, 0.6)%Q);
      ("High", (0.6, 0.8)%Q);
      ("Extreme", (0.8, 1.0)%Q) ]
|}.

(** ** The scoring methods *)

Definition _calculate_risk_score (self : CompoundDisasterAnalytics)
    (temp precip humidity power_demand soil_moisture : value) : result value :=
  (* Heat wave risk component *)
  let heat_risk := VNum KFloat 0.0 in
  do c <- py_ge temp (VNum KInt 95);
  do heat_risk <-
    (if c then
       do d <- py_sub temp (VNum KInt 95);
       do r <- py_div d (VNum KInt 15);
       py_min (VNum KFloat 1.0) r
     else Ok heat_risk);
  (* Extreme heat bonus *)
  do c <- py_ge temp (VNum KInt 100);
  do heat_risk <-
    (if c then
       do r <- py_add heat_risk (VNum KFloat 0.2);
       py_min (VNum KFloat 1.0) r
     else Ok heat_risk);
  do c <- py_ge temp (VNum KInt 105);
  do heat_risk <-
    (if c then
       do r <- py_add heat_risk (VNum KFloat 0.3);
       py_min (VNum KFloat 1.0) r
     else Ok heat_risk);
  (* Infrastructure stress risk *)
  let infra_risk := VNum KFloat 0.0 in
  do c <- py_ge power_demand (infrastructure_critical_threshold self);
  do infra_risk <-
    (if c then
       do d <- py_sub power_demand (VNum KInt 1800);
       do r <- py_div d (VNum KInt 400);
       py_min (VNum KFloat 1.0) r
     else Ok infra_risk);
  (* Compound effect: heat + infrastructure stress *)
  let compound_multiplier := VNum KFloat 1.0 in
  do c <- py_and (py_gt heat_risk (VNum KFloat 0.5))
                 (py_gt infra_risk (VNum KFloat 0.5));
  let compound_multiplier :=
    if c then VNum KFloat 1.5 else compound_multiplier in
  (* Flood risk component *)
  let flood_risk := VNum KFloat 0.0 in
  do c <- py_ge precip (flood_threshold_precipitation self);
  do flood_risk <-
    (if c then
       do r <- py_div precip (VNum KFloat 5.0);
       py_min (VNum KFloat 1.0) r
     else Ok flood_risk);
  (* Drought stress during heat *)
  let drought_stress := VNum KFloat 0.0 in
  do c <- py_and (py_gt temp (VNum KInt 95)) (py_lt precip (VNum KFloat 0.5));
  let drought_stress := if c then VNum KFloat 0.3 else drought_stress in
  (* Humidity factor *)
  let humidity_factor := VNum KFloat 1.0 in
  do c <- py_and (py_gt temp (VNum KInt 90)) (py_gt humidity (VNum KInt 70));
  let humidity_factor := if c then VNum KFloat 1.3 else humidity_factor in
  (* Soil moisture factor *)
  let soil_factor := VNum KFloat 1.0 in
  do c <- py_lt soil_moisture (VNum KInt 20);
  let soil_factor := if c then VNum KFloat 1.2 else soil_factor in
  (* Combined risk calculation *)
  do primary_risk <- py_max heat_risk flood_risk;
  do infrastructure_contribution <- py_mul infra_risk (VNum KFloat 0.6);
  do h <- py_sub humidity_factor (VNum KFloat 1.0);
  do s <- py_sub soil_factor (VNum KFloat 1.0);
  do e <- py_add drought_stress h;
  do e <- py_add e s;
  do environmental_stress <- py_mul e (VNum KFloat 0.3);
  do t <- py_add primary_risk infrastructure_contribution;
  do t <- py_add t environmental_stress;
  do total_risk <- py_mul t compound_multiplier;
  py_min (VNum KFloat 1.0) total_risk.

(** The [for] loop over [self.risk_thresholds.items()], with the
    fall-through [return 'Extreme'] once the items are exhausted. *)
Fixpoint _get_risk_level_loop (items : list (string * (Q * Q)))
    (risk_score : value) : result string :=
  match items with
  | [] => Ok "Extreme"
  | (level, (min_score, max_score)) :: rest =>
      do c <- py_and (py_le (VNum KFloat min_score) risk_score)
                     (py_lt risk_score (VNum KFloat max_score));
      if c then Ok level else _get_risk_level_loop rest risk_score
  end.

Definition _get_risk_level (self : CompoundDisasterAnalytics)
    (risk_score : value) : result string :=
  _get_risk_level_loop (risk_thresholds self) risk_score.

Definition _detect_anomaly (temp precip humidity power_demand : value)
  : result bool :=
  do c1 <- py_gt temp (VNum KInt 103);
  do c2 <- py_gt precip (VNum KFloat 4.0);
  do c3 <- py_gt power_demand (VNum KInt 1900);
  do c4 <- py_and (py_gt temp (VNum KInt 100)) (py_gt humidity (VNum KInt 80));
  do c5 <- py_and (py_gt temp (VNum KInt 95)) (py_gt precip (VNum KFloat 3.0));
  let anomaly_conditions := [c1; c2; c3; c4; c5] in
  Ok (existsb id anomaly_conditions).

Definition extreme_block : list string :=
  [ "🚨 EMERGENCY: Activate all cooling centers immediately";
    "⚡ CRITICAL: Monitor power grid for imminent failures";
    "📱 URGENT: Issue emergency heat warnings to all residents";
    "🏥 ALERT: Pre-position ambulances and medical teams";
    "💧 DEPLOY: Emergency water distribution teams";
    "🚑 ACTIVATE: Emergency response coordination center" ].

Definition high_block : list string :=
  [ "🏠 Open additional cooling centers";
    "⚡ Monitor power grid stress levels";
    "📢 Issue heat advisory to vulnerable populations";
    "🚑 Increase emergency medical readiness";
    "💧 Ensure adequate water supplies" ].

Definition moderate_block : list string :=
  [ "🌡️ Monitor heat conditions closely";
    "📊 Check vulnerable population welfare";
    "⚡ Review power grid status";
    "💧 Remind public about heat safety" ].

Definition cancel_outdoor_activities : string :=
  "🔥 EXTREME HEAT: Cancel outdoor activities".
Definition grid_stress : string :=
  "⚡ GRID STRESS: Prepare for potential rolling blackouts".
Definition flood_drainage : string :=
  "🌊 FLOOD RISK: Monitor drainage systems".

(** [recommendations] is the list the method mutates with [extend] and
    [append]; each step below returns the list after the mutation. *)
Definition _generate_recommendations (risk_level : string)
    (temp precip power_demand : value) : result (list string) :=
  let recommendations := [] in
  let recommendations :=
    if String.eqb risk_level "Extreme" then recommendations ++ extreme_block
    else if String.eqb risk_level "High" then recommendations ++ high_block
    else if String.eqb risk_level "Moderate" then
      recommendations ++ moderate_block
    else recommendations in
  (* Additional specific recommendations *)
  do c <- py_gt temp (VNum KInt 100);
  let recommendations :=
    if c then recommendations ++ [cancel_outdoor_activities]
    else recommendations in
  do c <- py_gt power_demand (VNum KInt 1850);
  let recommendations :=
    if c then recommendations ++ [grid_stress] else recommendations in
  do c <- py_gt precip (VNum KFloat 3.0);
  let recommendations :=
    if c then recommendations ++ [flood_drainage] else recommendations in
  Ok recommendations.

Definition _assess_infrastructure_impact (power_demand : value)
  : result string :=
  do c <- py_gt power_demand (VNum KInt 1900);
  if c then Ok "Critical"
  else
    do c <- py_gt power_demand (VNum KInt 1800);
    if c then Ok "High"
    else
      do c <- py_gt power_demand (VNum KInt 1600);
      if c then Ok "Moderate" else Ok "Low".

(** [input_data.get(key, default)] *)
Definition get (input_data : gmap string value) (key : string)
    (default : value) : value :=
  match input_data !! key with
  | Some v => v
  | None => default
  end.

(** The body of the [try] block.  [now] stands for
    [datetime.now().isoformat()], the one value that is read from the
    environment.  The returned dict is a finite map: the order of the keys
    in the dict literal is not kept. *)
Definition predict_compound_risk_try (self : CompoundDisasterAnalytics)
    (now : string) (input_data : gmap string value)
  : result (gmap string value) :=
  (* Extract features *)
  let temp := get input_data "temperature" (VNum KInt 75) in
  let precip := get input_data "precipitation" (VNum KFloat 0.1) in
  let humidity := get input_data "humidity" (VNum KInt 50) in
  let power_demand := get input_data "power_demand" (VNum KInt 1500) in
  let soil_moisture := get input_data "soil_moisture" (VNum KInt 30) in
  do risk_score <-
    _calculate_risk_score self temp precip humidity power_demand soil_moisture;
  do risk_level <- _get_risk_level self risk_score;
  do is_anomaly <- _detect_anomaly temp precip humidity power_demand;
  do recommendations <-
    _generate_recommendations risk_level temp precip power_demand;
  (* Calculate confidence (simplified) *)
  do m <- py_mul risk_score (VNum KFloat 0.25);
  do s <- py_add (VNum KFloat 0.7) m;
  do confidence <- py_min (VNum KFloat 0.95) s;
  do rounded_score <- py_round3 risk_score;
  do rounded_confidence <- py_round3 confidence;
  do infrastructure_impact <- _assess_infrastructure_impact power_demand;
  Ok (<["risk_score" := rounded_score]>
      (<["risk_level" := VStr risk_level]>
      (<["is_anomaly" := VBool is_anomaly]>
      (<["recommendations" := VList recommendations]>
      (<["confidence" := rounded_confidence]>
      (<["infrastructure_impact" := VStr infrastructure_impact]>
      (<["analysis_time" := VStr now]> ∅))))))).

(** [try: ... except Exception as e: return {...}] *)
Definition predict_compound_risk (self : CompoundDisasterAnalytics)
    (now : string) (input_data : gmap string value) : gmap string value :=
  match predict_compound_risk_try self now input_data with
  | Ok assessment => assessment
  | Raise e =>
      <["error" := VStr ("Risk prediction failed: " +:+ str e)]>
      (<["risk_score" := VNum KFloat 0.0]>
      (<["risk_level" := VStr "Unknown"]> ∅))
  end.

(** ** The numeric path

    What each method computes once every operand is a number: the same
    statements, on [Q], with the local variables of [_calculate_risk_score]
    as functions of the readings.  The lemmas [numeric_calculate_risk_score],
    [numeric_detect_anomaly], ... prove that the methods above return
    these values. *)

Module Numeric.
Section Observation.
Local Open Scope Q_scope.

Definition min (a b : Q) : Q := if Qltb b a then b else a.
Definition max (a b : Q) : Q := if Qltb a b then b else a.

Variables temp precip humidity power_demand soil_moisture : Q.

Definition heat_risk : Q :=
  let heat_risk := 0.0 in
  let heat_risk :=
    if Qle_bool 95 temp then min 1.0 ((temp - 95) / 15) else heat_risk in
  let heat_risk :=
    if Qle_bool 100 temp then min 1.0 (heat_risk + 0.2) else heat_risk in
  let heat_risk :=
    if Qle_bool 105 temp then min 1.0 (heat_risk + 0.3) else heat_risk in
  heat_risk.

Definition infra_risk : Q :=
  if Qle_bool 1800 power_demand
  then min 1.0 ((power_demand - 1800) / 400) else 0.0.

Definition compound_multiplier : Q :=
  if Qltb 0.5 heat_risk && Qltb 0.5 infra_risk then 1.5 else 1.0.

Definition flood_risk : Q :=
  if Qle_bool 2.0 precip then min 1.0 (precip / 5.0) else 0.0.

Definition drought_stress : Q :=
  if Qltb 95 temp && Qltb precip 0.5 then 0.3 else 0.0.

Definition humidity_factor : Q :=
  if Qltb 90 temp && Qltb 70 humidity then 1.3 else 1.0.

Definition soil_factor : Q :=
  if Qltb soil_moisture 20 then 1.2 else 1.0.

Definition primary_risk : Q := max heat_risk flood_risk.
Definition infrastructure_contribution : Q := infra_risk * 0.6.
Definition environmental_stress : Q :=
  (drought_stress + (humidity_factor - 1.0) + (soil_factor - 1.0)) * 0.3.
Definition total_risk : Q :=
  (primary_risk + infrastructure_contribution + environmental_stress)
  * compound_multiplier.

Definition risk_score : Q := min 1.0 total_risk.

Definition is_anomaly : bool :=
  existsb id
    [ Qltb 103 temp;
      Qltb 4.0 precip;
      Qltb 1900 power_demand;
      Qltb 100 temp && Qltb 80 humidity;
      Qltb 95 temp && Qltb 3.0 precip ].

Definition recommendations (risk_level : string) : list string :=
  let recommendations :=
    if String.eqb risk_level "Extreme" then extreme_block
    else if String.eqb risk_level "High" then high_block
    else if String.eqb risk_level "Moderate" then moderate_block
    else [] in
  let recommendations :=
    if Qltb 100 temp then recommendations ++ [cancel_outdoor_activities]
    else recommendations in
  let recommendations :=
    if Qltb 1850 power_demand then recommendations ++ [grid_stress]
    else recommendations in
  let recommendations :=
    if Qltb 3.0 precip then recommendations ++ [flood_drainage]
    else recommendations in
  recommendations.

Definition infrastructure_impact : string :=
  if Qltb 1900 power_demand then "Critical"
  else if Qltb 1800 power_demand then "High"
  else if Qltb 1600 power_demand then "Moderate"
  else "Low".
End Observation.

Fixpoint risk_level (items : list (string * (Q * Q))) (risk_score : Q)
  : string :=
  match items with
  | [] => "Extreme"
  | (level, (min_score, max_score)) :: rest =>
      if Qle_bool min_score risk_score && Qltb risk_score max_score
      then level else risk_level rest risk_score
  end.

Definition confidence (risk_score : Q) : Q :=
  min 0.95 (0.7 + risk_score * 0.25)%Q.
End Numeric.

(** ** The specification's formulas

    Written from the words of the specification (section 4.1), to be
    compared with the methods above. *)

Module Spec.
Section Formulas.
Local Open Scope Q_scope.

Variables temp precip humidity powerDemand soilMoisture : Q.









(** The five documented anomaly conditions. *)
Definition anomaly : Prop :=
  103 < temp \/ 4.0 < precip \/ 1900 < powerDemand
  \/ (100 < temp /\ 80 < humidity) \/ (95 < temp /\ 3.0 < precip).

(** Tier block, then the three conditional strings in their order. *)
Definition tierBlock (riskLevel : string) : list string :=
  if String.eqb riskLevel "Extreme" then extreme_block
  else if String.eqb riskLevel "High" then high_block
  else if String.eqb riskLevel "Moderate" then moderate_block
  else [].

Definition recommendationList (riskLevel : string) : list string :=
  tierBlock riskLevel
  ++ (if Qltb 100 temp then [cancel_outdoor_activities] else [])
  ++ (if Qltb 1850 powerDemand then [grid_stress] else [])
  ++ (if Qltb 3.0 precip then [flood_drainage] else []).
End Formulas.



Definition levels : list string := ["Low"; "Moderate"; "High"; "Extreme"].
End Spec.

(** An observation whose five readings are numbers ([int], [float] or
    [bool]), each one given in [input_data] or left to its default. *)
Definition reads (input_data : gmap string value) (key : string)
    (default : value) (q : Q) : Prop :=
  exists k, as_num (get input_data key default) = Some (k, q).

Definition numeric_observation (input_data : gmap string value)
    (temp precip humidity power_demand soil_moisture : Q) : Prop :=
  reads input_data "temperature" (VNum KInt 75) temp
  /\ reads input_data "precipitation" (VNum KFloat 0.1) precip
  /\ reads input_data "humidity" (VNum KInt 50) humidity
  /\ reads input_data "power_demand" (VNum KInt 1500) power_demand
  /\ reads input_data "soil_moisture" (VNum KInt 30) soil_moisture.

(** The dict literal of five readings. *)
Definition observation (temp precip humidity power_demand soil_moisture : value)
  : gmap string value :=
  <["temperature" := temp]>
  (<["precipitation" := precip]>
  (<["humidity" := humidity]>
  (<["power_demand" := power_demand]>
  (<["soil_moisture" := soil_moisture]> ∅)))).

(** Sample readings: the heat dome of [validate_system] with the default
    soil moisture (scenario A), and the inputs used as examples below. *)
Definition scenario_a : gmap string value :=
  observation (VNum KInt 103) (VNum KFloat 0.1) (VNum KInt 65)
              (VNum KInt 1850) (VNum KInt 30).
Definition non_numeric_temperature : gmap string value :=
  <["temperature" := VStr "hot"]> ∅.
Definition non_numeric_humidity : gmap string value :=
  <["humidity" := VStr "wet"]> ∅.


(** The readings whose use as a number fails: temperature,
    precipitation, power demand and soil moisture are compared with a
    number on every call, the humidity only when the temperature is
    above 90 ([temp > 90 and humidity > 70] stops at the temperature
    otherwise, and so does [temp > 100 and humidity > 80]). *)
Definition coercion_fails (input_data : gmap string value) : Prop :=
  let temp := get input_data "temperature" (VNum KInt 75) in
  let precip := get input_data "precipitation" (VNum KFloat 0.1) in
  let humidity := get input_data "humidity" (VNum KInt 50) in
  let power_demand := get input_data "power_demand" (VNum KInt 1500) in
  let soil_moisture := get input_data "soil_moisture" (VNum KInt 30) in
  as_num temp = None \/ as_num precip = None \/ as_num power_demand = None
  \/ as_num soil_moisture = None
  \/ (as_num humidity = None
      /\ exists k t, as_num temp = Some (k, t) /\ (90 < t)%Q).

(** The dict that the [try] block returns on a numeric observation, in
    terms of the numeric path. *)
Definition numeric_assessment (now : string)
    (temp precip humidity power_demand soil_moisture : Q)
  : gmap string value :=
  let risk_score :=
    Numeric.risk_score temp precip humidity power_demand soil_moisture in
  let risk_level := Numeric.risk_level (risk_thresholds __init__) risk_score in
  <["risk_score" := VNum KFloat (round3 risk_score)]>
  (<["risk_level" := VStr risk_level]>
  (<["is_anomaly" :=
       VBool (Numeric.is_anomaly temp precip humidity power_demand)]>
  (<["recommendations" :=
       VList (Numeric.recommendations temp precip power_demand risk_level)]>
  (<["confidence" := VNum KFloat (round3 (Numeric.confidence risk_score))]>
  (<["infrastructure_impact" :=
       VStr (Numeric.infrastructure_impact power_demand)]>
  (<["analysis_time" := VStr now]> ∅)))))).

Definition sample_time : string := "2025-07-01T12:00:00".

(** The claims of the specification that read two fields of one result. *)



(** Scenario A as the specification derives it; a value given to three
    decimals is read as the rounding of the exact one.  The sub-scores
    are the local variables of [_calculate_risk_score], the level and the
    anomaly flag are read from the result. *)
Definition scenario_a_as_derived (now : string) : Prop :=
  let temp := 103%Q in
  let precip := 0.1%Q in
  let humidity := 65%Q in
  let power_demand := 1850%Q in
  let soil_moisture := 30%Q in
  let assessment := predict_compound_risk __init__ now scenario_a in
  (round3 (Numeric.heat_risk temp) == 0.733)%Q
  /\ (Numeric.infra_risk power_demand == 0.125)%Q
  /\ (Numeric.compound_multiplier temp power_demand == 1.0)%Q
  /\ (Numeric.environmental_stress temp precip humidity soil_moisture == 0)%Q
  /\ (round3 (Numeric.total_risk temp precip humidity power_demand
                                 soil_moisture) == 0.808)%Q
  /\ (assessment !! "risk_level" = Some (VStr "High")
      \/ assessment !! "risk_level" = Some (VStr "Extreme"))
  /\ assessment !! "is_anomaly" = Some (VBool false).


(** ** The rest of the class and of the package

    [validate_system] returns a dict whose values are a string, the dict
    of the four checks and the assessment itself. *)

Inductive report_value :=
| RStr (s : string)
| RChecks (checks : list (string * bool))
| RResult (assessment : gmap string value).

(** [key in d] on a dict. *)
Definition py_has_key (d : gmap string value) (key : string) : bool :=
  match d !! key with
  | Some _ => true
  | None => false
  end.

(** [x in names] on a list of strings: [x == name] for some name, which
    only a string can satisfy. *)
Definition py_in_strings (x : value) (names : list string) : bool :=
  match x with
  | VStr s => existsb (String.eqb s) names
  | _ => false
  end.

(** The number of code points of a UTF-8 string: the bytes that are not
    continuation bytes. *)
Fixpoint code_points (s : string) : nat :=
  match s with
  | EmptyString => 0
  | String c rest =>
      let n := Ascii.nat_of_ascii c in
      (if (128 <=? n)%nat && (n <? 192)%nat then 0 else 1)%nat
      + code_points rest
  end.

(** [len(x)] *)
Definition py_len (x : value) : result nat :=
  match x with
  | VList l => Ok (length l)
  | VStr s => Ok (code_points s)
  | _ =>
      Raise (TypeError ("object of type '" +:+ type_name x
                        +:+ "' has no len()"))
  end.

Definition test_conditions : gmap string value :=
  <["temperature" := VNum KInt 103]>
  (<["precipitation" := VNum KFloat 0.1]>
  (<["humidity" := VNum KInt 65]>
  (<["power_demand" := VNum KInt 1850]> ∅))).

(** The body of the [try] block of [validate_system].  [now] is the
    clock reading inside [predict_compound_risk], [validation_time] the
    later one of the report. *)
Definition validate_system_try (self : CompoundDisasterAnalytics)
    (now validation_time : string) : result (gmap string report_value) :=
  let result := predict_compound_risk self now test_conditions in
  (* Validation checks *)
  let prediction_successful := py_has_key result "risk_score" in
  let risk_level_assigned :=
    py_in_strings (get result "risk_level" VNone)
                  ["Low"; "Moderate"; "High"; "Extreme"] in
  do n <- py_len (get result "recommendations" (VList []));
  let recommendations_generated := (0 <? n)%nat in
  do confidence_calculated <-
    (let confidence := get result "confidence" (VNum KInt 0) in
     py_and (py_le (VNum KInt 0) confidence) (py_le confidence (VNum KInt 1)));
  let checks :=
    [ ("prediction_successful", prediction_successful);
      ("risk_level_assigned", risk_level_assigned);
      ("recommendations_generated", recommendations_generated);
      ("confidence_calculated", confidence_calculated) ] in
  let all_passed := forallb snd checks in
  Ok (<["system_status" :=
          RStr (if all_passed then "OPERATIONAL" else "ISSUES_DETECTED")]>
      (<["validation_checks" := RChecks checks]>
      (<["test_result" := RResult result]>
      (<["validation_time" := RStr validation_time]> ∅)))).

Definition validate_system (self : CompoundDisasterAnalytics)
    (now validation_time : string) : gmap string report_value :=
  match validate_system_try self now validation_time with
  | Ok report => report
  | Raise e =>
      <["system_status" := RStr "ERROR"]>
      (<["error" := RStr (str e)]>
      (<["validation_time" := RStr validation_time]> ∅))
  end.

(** The level ranges of the package ([src/__init__.py]). *)
Definition RISK_LEVELS : gmap string (Q * Q) :=
  <["LOW" := (0.0, 0.3)%Q]>
  (<["MODERATE" := (0.3, 0.6)%Q]>
  (<["HIGH" := (0.6, 0.8)%Q]>
  (<["EXTREME" := (0.8, 1.0)%Q]> ∅))).

(** An engine after [engine.infrastructure_critical_threshold = v]. *)
Definition set_infrastructure_critical_threshold
    (self : CompoundDisasterAnalytics) (v : value)
  : CompoundDisasterAnalytics :=
  {| heat_threshold_temp := heat_threshold_temp self;
     heat_threshold_duration := heat_threshold_duration self;
     flood_threshold_precipitation := flood_threshold_precipitation self;
     infrastructure_critical_threshold := v;
     risk_thresholds := risk_thresholds self |}.

(** An engine after [engine.heat_threshold_temp = v]. *)
Definition set_heat_threshold_temp
    (self : CompoundDisasterAnalytics) (v : value)
  : CompoundDisasterAnalytics :=
  {| heat_threshold_temp := v;
     heat_threshold_duration := heat_threshold_duration self;
     flood_threshold_precipitation := flood_threshold_precipitation self;
     infrastructure_critical_threshold :=
       infrastructure_critical_threshold self;
     risk_thresholds := risk_thresholds self |}.


(** The five keys that [predict_compound_risk] reads. *)
Definition feature_keys : list string :=
  ["temperature"; "precipitation"; "humidity"; "power_demand";
   "soil_moisture"].

Definition feature_default (key : string) : value :=
  if String.eqb key "temperature" then VNum KInt 75
  else if String.eqb key "precipitation" then VNum KFloat 0.1
  else if String.eqb key "humidity" then VNum KInt 50
  else if String.eqb key "power_demand" then VNum KInt 1500
  else VNum KInt 30.

(** Sample inputs for the properties of the last part. *)
Definition no_readings : gmap string value := ∅.
Definition grid_only_1950 : gmap string value :=
  <["power_demand" := VNum KInt 1950]> ∅.
Definition grid_only_2500 : gmap string value :=
  <["power_demand" := VNum KInt 2500]> ∅.
Definition heat_106 : gmap string value :=
  <["temperature" := VNum KInt 106]> ∅.
Definition camel_case_demand : gmap string value :=
  <["powerDemand" := VNum KInt 2500]> ∅.

(** * Properties *)

Local Open Scope Q_scope.

(** ** Comparisons and the error monad *)

Lemma Qle_bool_reflect (a b : Q) : reflect (a <= b) (Qle_bool a b).
Proof. apply iff_reflect. symmetry. apply Qle_bool_iff. Qed.

Lemma Qltb_reflect (a b : Q) : reflect (a < b) (Qltb a b).
Proof.
  unfold Qltb. destruct (Qle_bool_reflect b a) as [H|H]; constructor.
  - now apply Qle_not_lt.
  - now apply Qnot_le_lt.
Qed.

Lemma Qltb_100_of_90 t : Qltb 90 t = false -> Qltb 100 t = false.
Proof.
  destruct (Qltb_reflect 90 t), (Qltb_reflect 100 t); intros;
    try reflexivity; try discriminate; exfalso; lra.
Qed.

Lemma bind_Ok {A B} (a : A) (f : A -> result B) : bind (Ok a) f = f a.
Proof. reflexivity. Qed.

Lemma if_Ok {A} (c : bool) (a b : A) :
  (if c then Ok a else Ok b) = Ok (if c then a else b).
Proof. now destruct c. Qed.

Lemma if_VNum (c : bool) k (a b : Q) :
  (if c then VNum k a else VNum k b) = VNum k (if c then a else b).
Proof. now destruct c. Qed.

(** ** The operations on numbers *)

Section Operations.
Variables (k1 k2 : numkind) (a b : Q).

Lemma py_ge_num : py_ge (VNum k1 a) (VNum k2 b) = Ok (Qle_bool b a).
Proof. reflexivity. Qed.

Lemma py_gt_num : py_gt (VNum k1 a) (VNum k2 b) = Ok (Qltb b a).
Proof. reflexivity. Qed.

Lemma py_le_num : py_le (VNum k1 a) (VNum k2 b) = Ok (Qle_bool a b).
Proof. reflexivity. Qed.

Lemma py_lt_num : py_lt (VNum k1 a) (VNum k2 b) = Ok (Qltb a b).
Proof. reflexivity. Qed.

Lemma py_add_num :
  py_add (VNum k1 a) (VNum k2 b) = Ok (VNum (join_kind k1 k2) (a + b)).
Proof. reflexivity. Qed.

Lemma py_sub_num :
  py_sub (VNum k1 a) (VNum k2 b) = Ok (VNum (join_kind k1 k2) (a - b)).
Proof. reflexivity. Qed.

Lemma py_mul_num :
  py_mul (VNum k1 a) (VNum k2 b) = Ok (VNum (join_kind k1 k2) (a * b)).
Proof. reflexivity. Qed.

Lemma py_div_num :
  Qeq_bool b 0 = false ->
  py_div (VNum k1 a) (VNum k2 b) = Ok (VNum KFloat (a / b)).
Proof. intros H. unfold py_div. cbn [as_num]. now rewrite H. Qed.

Lemma join_kind_float_r : join_kind k1 KFloat = KFloat.
Proof. now destruct k1. Qed.
End Operations.

Lemma py_min_num k a b :
  py_min (VNum k a) (VNum k b) = Ok (VNum k (Numeric.min a b)).
Proof.
  unfold py_min, Numeric.min. rewrite py_lt_num, bind_Ok.
  now destruct (Qltb b a).
Qed.

Lemma py_max_num k a b :
  py_max (VNum k a) (VNum k b) = Ok (VNum k (Numeric.max a b)).
Proof.
  unfold py_max, Numeric.max. rewrite py_gt_num, bind_Ok.
  now destruct (Qltb a b).
Qed.

Lemma py_and_Ok (a b : bool) : py_and (Ok a) (Ok b) = Ok (a && b).
Proof. now destruct a. Qed.

Lemma py_and_false (m : result bool) : py_and (Ok false) m = Ok false.
Proof. reflexivity. Qed.

Create Rewrite HintDb pynum.
#[global] Hint Rewrite @bind_Ok @if_Ok if_VNum py_ge_num py_gt_num py_le_num
  py_lt_num py_add_num py_sub_num py_mul_num py_min_num py_max_num py_and_Ok
  join_kind_float_r : pynum.
#[global] Hint Rewrite py_div_num using reflexivity : pynum.

(** ** The methods on numbers *)

Section Methods.
Variables kt kp kh kd ks : numkind.
Variables temp precip humidity power_demand soil_moisture : Q.

Lemma numeric_calculate_risk_score :
  _calculate_risk_score __init__ (VNum kt temp) (VNum kp precip)
    (VNum kh humidity) (VNum kd power_demand) (VNum ks soil_moisture)
  = Ok (VNum KFloat (Numeric.risk_score temp precip humidity power_demand
                                        soil_moisture)).
Proof.
  unfold _calculate_risk_score. cbv beta zeta.
  cbn [infrastructure_critical_threshold flood_threshold_precipitation
       __init__].
  autorewrite with pynum. reflexivity.
Qed.

Lemma numeric_detect_anomaly :
  _detect_anomaly (VNum kt temp) (VNum kp precip) (VNum kh humidity)
    (VNum kd power_demand)
  = Ok (Numeric.is_anomaly temp precip humidity power_demand).
Proof. unfold _detect_anomaly. autorewrite with pynum. reflexivity. Qed.

Lemma numeric_generate_recommendations level :
  _generate_recommendations level (VNum kt temp) (VNum kp precip)
    (VNum kd power_demand)
  = Ok (Numeric.recommendations temp precip power_demand level).
Proof.
  unfold _generate_recommendations. cbv beta zeta. autorewrite with pynum.
  reflexivity.
Qed.

Lemma numeric_assess_infrastructure_impact :
  _assess_infrastructure_impact (VNum kd power_demand)
  = Ok (Numeric.infrastructure_impact power_demand).
Proof.
  unfold _assess_infrastructure_impact, Numeric.infrastructure_impact.
  autorewrite with pynum.
  repeat match goal with
         | |- context [Qltb ?a ?b] =>
             destruct (Qltb a b); autorewrite with pynum; try reflexivity
         end.
Qed.

(** When the temperature is at most 90 the humidity is never compared:
    it may be any object. *)
Lemma calculate_risk_score_humidity_unread (unread : value) :
  Qltb 90 temp = false ->
  _calculate_risk_score __init__ (VNum kt temp) (VNum kp precip) unread
    (VNum kd power_demand) (VNum ks soil_moisture)
  = Ok (VNum KFloat (Numeric.risk_score temp precip humidity power_demand
                                        soil_moisture)).
Proof.
  intros Hf. unfold _calculate_risk_score. cbv beta zeta.
  cbn [infrastructure_critical_threshold flood_threshold_precipitation
       __init__].
  autorewrite with pynum. rewrite Hf, py_and_false.
  autorewrite with pynum.
  unfold Numeric.risk_score, Numeric.total_risk, Numeric.environmental_stress,
    Numeric.humidity_factor.
  rewrite Hf. reflexivity.
Qed.

Lemma detect_anomaly_humidity_unread (unread : value) :
  Qltb 100 temp = false ->
  _detect_anomaly (VNum kt temp) (VNum kp precip) unread (VNum kd power_demand)
  = Ok (Numeric.is_anomaly temp precip humidity power_demand).
Proof.
  intros Hf. unfold _detect_anomaly. autorewrite with pynum.
  rewrite Hf, py_and_false. autorewrite with pynum.
  unfold Numeric.is_anomaly. rewrite Hf. reflexivity.
Qed.
End Methods.

Lemma numeric_get_risk_level_loop items k score :
  _get_risk_level_loop items (VNum k score)
  = Ok (Numeric.risk_level items score).
Proof.
  induction items as [|[level [lo hi]] rest IH]; [reflexivity|].
  cbn [_get_risk_level_loop Numeric.risk_level].
  autorewrite with pynum.
  destruct (Qle_bool lo score && Qltb score hi); [reflexivity | exact IH].
Qed.

(** ** The entry point on a numeric observation *)

(** A number read from a [bool] behaves as the [int] it stands for. *)
Ltac bool_as_int b :=
  match goal with
  | |- ?G =>
      match eval pattern (VBool b) in G with
      | ?P _ => change (P (VNum KInt (if b then 1 else 0))); cbv beta
      end
  end.

Ltac reading H :=
  let k := fresh "k" in
  let b := fresh "b" in
  destruct H as [k H];
  match type of H with
  | as_num ?v = _ =>
      destruct v as [? ?|b| | |]; try discriminate H;
      injection H as <- <-; [|bool_as_int b]
  end.

Section Entry.
Variables (now : string) (input : gmap string value).
Variables temp precip humidity power_demand soil_moisture : Q.

Lemma numeric_try_humidity :
  reads input "temperature" (VNum KInt 75) temp ->
  reads input "precipitation" (VNum KFloat 0.1) precip ->
  reads input "power_demand" (VNum KInt 1500) power_demand ->
  reads input "soil_moisture" (VNum KInt 30) soil_moisture ->
  reads input "humidity" (VNum KInt 50) humidity \/ Qltb 90 temp = false ->
  predict_compound_risk_try __init__ now input
  = Ok (numeric_assessment now temp precip humidity power_demand
                           soil_moisture).
Proof.
  intros Ht Hp Hd Hs Hh.
  unfold predict_compound_risk_try. cbv zeta.
  reading Ht; reading Hp; reading Hd; reading Hs.
  all: destruct Hh as [Hh|Hh];
    [ reading Hh; rewrite numeric_calculate_risk_score, bind_Ok
    | rewrite (calculate_risk_score_humidity_unread _ _ _ _ _ _ humidity)
        by exact Hh;
      rewrite bind_Ok ].
  all: unfold _get_risk_level;
    rewrite numeric_get_risk_level_loop, bind_Ok.
  all: first
    [ rewrite numeric_detect_anomaly
    | rewrite (detect_anomaly_humidity_unread _ _ _ _ _ humidity)
        by (apply Qltb_100_of_90; exact Hh) ].
  all: rewrite bind_Ok, numeric_generate_recommendations, bind_Ok,
    numeric_assess_infrastructure_impact.
  all: rewrite py_mul_num, bind_Ok, py_add_num, bind_Ok, py_min_num, bind_Ok.
  all: cbn [py_round3 as_num bind join_kind];
    unfold numeric_assessment, Numeric.confidence; cbv zeta.
  all: reflexivity.
Qed.

Hypothesis numeric :
  numeric_observation input temp precip humidity power_demand soil_moisture.

Lemma numeric_try :
  predict_compound_risk_try __init__ now input
  = Ok (numeric_assessment now temp precip humidity power_demand
                           soil_moisture).
Proof.
  destruct numeric as (Ht & Hp & Hh & Hd & Hs).
  apply numeric_try_humidity; auto.
Qed.

Lemma numeric_predict :
  predict_compound_risk __init__ now input
  = numeric_assessment now temp precip humidity power_demand soil_moisture.
Proof. unfold predict_compound_risk. now rewrite numeric_try. Qed.

End Entry.

Lemma assessment_risk_score now t p h d s :
  numeric_assessment now t p h d s !! "risk_score"
  = Some (VNum KFloat (round3 (Numeric.risk_score t p h d s))).
Proof. reflexivity. Qed.

(** ** Case analysis on rational comparisons *)

Lemma Qmin_min a b : Qmin a b = Numeric.min a b.
Proof.
  unfold Qmin, GenericMinMax.gmin, Numeric.min.
  destruct (Qltb_reflect b a) as [H|H], (Qcompare_spec a b) as [E|E|E];
    try reflexivity; exfalso.
  - rewrite E in H. now apply Qlt_irrefl in H.
  - apply (Qlt_irrefl a). now transitivity b.
  - contradiction.
Qed.

Lemma Qmax_max a b : Qmax a b = Numeric.max a b.
Proof.
  unfold Qmax, GenericMinMax.gmax, Numeric.max.
  destruct (Qltb_reflect a b) as [H|H], (Qcompare_spec a b) as [E|E|E];
    try reflexivity; exfalso.
  - rewrite E in H. now apply Qlt_irrefl in H.
  - apply (Qlt_irrefl a). now transitivity b.
  - contradiction.
Qed.

(** The divisions of the program are by constants. *)
Ltac qdiv :=
  unfold Qdiv in *;
  change (/ 15) with (1 # 15) in *;
  change (/ 400) with (1 # 400) in *;
  change (/ 5.0) with (10 # 50) in *.

Ltac no_test t :=
  lazymatch t with
  | context [Qle_bool _ _] => fail
  | context [Qltb _ _] => fail
  | _ => idtac
  end.

(** Splits on an innermost comparison of the goal. *)
Ltac qcase :=
  match goal with
  | |- context [Qle_bool ?a ?b] =>
      no_test a; no_test b; destruct (Qle_bool_reflect a b)
  | |- context [Qltb ?a ?b] =>
      no_test a; no_test b; destruct (Qltb_reflect a b)
  end.

Ltac qsolve :=
  rewrite ?Qmin_min, ?Qmax_max; unfold Numeric.min, Numeric.max;
  qdiv; repeat (qcase; cbn [andb orb]; try lra).

(** ** Ranges of the sub-scores *)

Lemma heat_risk_range temp : 0 <= Numeric.heat_risk temp <= 1.
Proof. unfold Numeric.heat_risk. cbv zeta. qsolve. Qed.

Lemma infra_risk_range power_demand :
  0 <= Numeric.infra_risk power_demand <= 1.
Proof. unfold Numeric.infra_risk. qsolve. Qed.

Lemma flood_risk_range precip : 0 <= Numeric.flood_risk precip <= 1.
Proof. unfold Numeric.flood_risk. qsolve. Qed.

Lemma environmental_stress_nonneg temp precip humidity soil_moisture :
  0 <= Numeric.environmental_stress temp precip humidity soil_moisture.
Proof.
  unfold Numeric.environmental_stress, Numeric.drought_stress,
    Numeric.humidity_factor, Numeric.soil_factor.
  qsolve.
Qed.

Lemma total_risk_nonneg temp precip humidity power_demand soil_moisture :
  0 <= Numeric.total_risk temp precip humidity power_demand soil_moisture.
Proof.
  unfold Numeric.total_risk, Numeric.primary_risk,
    Numeric.infrastructure_contribution, Numeric.compound_multiplier.
  pose proof (heat_risk_range temp).
  pose proof (infra_risk_range power_demand).
  pose proof (flood_risk_range precip).
  pose proof (environmental_stress_nonneg temp precip humidity soil_moisture).
  generalize dependent (Numeric.heat_risk temp).
  generalize dependent (Numeric.infra_risk power_demand).
  generalize dependent (Numeric.flood_risk precip).
  generalize dependent
    (Numeric.environmental_stress temp precip humidity soil_moisture).
  intros. qsolve.
Qed.

Lemma risk_score_range temp precip humidity power_demand soil_moisture :
  0 <= Numeric.risk_score temp precip humidity power_demand soil_moisture <= 1.
Proof.
  unfold Numeric.risk_score.
  pose proof (total_risk_nonneg temp precip humidity power_demand
                                soil_moisture).
  generalize dependent
    (Numeric.total_risk temp precip humidity power_demand soil_moisture).
  intros. qsolve.
Qed.

Lemma confidence_range score :
  0 <= score <= 1 -> 0.70 <= Numeric.confidence score <= 0.95.
Proof. intros H. unfold Numeric.confidence. qsolve. Qed.

(** ** The methods against the specification's formulas *)










Lemma is_anomaly_spec temp precip humidity power_demand :
  Numeric.is_anomaly temp precip humidity power_demand = true
  <-> Spec.anomaly temp precip humidity power_demand.
Proof.
  unfold Numeric.is_anomaly, Spec.anomaly. cbn [existsb id].
  repeat (qcase; cbn [andb orb]); split; intros; try reflexivity;
    try discriminate; lra.
Qed.

Lemma recommendations_spec temp precip power_demand level :
  Numeric.recommendations temp precip power_demand level
  = Spec.recommendationList temp precip power_demand level.
Proof.
  unfold Numeric.recommendations, Spec.recommendationList, Spec.tierBlock.
  cbv zeta.
  destruct (Qltb 100 temp), (Qltb 1850 power_demand), (Qltb 3.0 precip);
    rewrite <- ?app_assoc, ?app_nil_r; reflexivity.
Qed.

(** ** Rounding to three decimals *)

Lemma round_half_even_floor x :
  (Qfloor x <= round_half_even x <= Qfloor x + 1)%Z.
Proof.
  unfold round_half_even. cbv zeta.
  destruct (x - inject_Z (Qfloor x) ?= 1 # 2); [destruct (Z.even _)| |]; lia.
Qed.

Lemma round_half_even_le x y :
  x <= y -> (round_half_even x <= round_half_even y)%Z.
Proof.
  intros Hxy.
  pose proof (Qfloor_resp_le _ _ Hxy) as Hf.
  destruct (Z.eq_dec (Qfloor x) (Qfloor y)) as [E|E].
  - unfold round_half_even. cbv zeta. rewrite <- E.
    destruct (Qcompare_spec (x - inject_Z (Qfloor x)) (1 # 2)),
             (Qcompare_spec (y - inject_Z (Qfloor x)) (1 # 2));
      try destruct (Z.even (Qfloor x)); try lia; exfalso; lra.
  - pose proof (round_half_even_floor x).
    pose proof (round_half_even_floor y). lia.
Qed.

Lemma round3_le x y : x <= y -> round3 x <= round3 y.
Proof.
  intros H. unfold round3, Qle. cbn [Qnum Qden].
  apply Z.mul_le_mono_nonneg_r; [lia|].
  apply round_half_even_le. lra.
Qed.

Lemma round3_comp x y : x == y -> round3 x = round3 y.
Proof.
  intros H. unfold round3. f_equal.
  apply Z.le_antisymm; apply round_half_even_le; lra.
Qed.

Lemma round3_range lo hi x :
  round3 lo == lo -> round3 hi == hi -> lo <= x <= hi ->
  lo <= round3 x <= hi.
Proof.
  intros Hlo Hhi [H1 H2]. split.
  - apply Qle_trans with (round3 lo); [rewrite Hlo; apply Qle_refl|].
    now apply round3_le.
  - apply Qle_trans with (round3 hi); [|rewrite Hhi; apply Qle_refl].
    now apply round3_le.
Qed.

(** ** The error path *)

Lemma py_compare_non_numeric_l op f l r :
  as_num l = None -> exists e, py_compare op f l r = Raise e.
Proof. intros H. unfold py_compare. rewrite H. eexists; reflexivity. Qed.

(** Runs the [try] block up to a comparison of a reading that is not a
    number: every earlier step either raises or goes on. *)
Ltac run_try :=
  repeat first
    [ match goal with
      | |- exists e, Raise _ = Raise e => eexists; reflexivity
      | H : as_num ?v = None |- context [py_compare ?op ?f ?v ?r] =>
          let e := fresh "e" in
          let E := fresh "E" in
          destruct (py_compare_non_numeric_l op f v r H) as [e E];
          rewrite E; cbn [bind py_and]
      | |- context [bind (if ?c then _ else _) _] => destruct c
      | |- context [bind ?m _] =>
          lazymatch m with
          | context [bind _ _] => fail
          | _ => destruct m; cbn [bind]
          end
      end ].

Lemma calculate_risk_score_raises self temp precip humidity power_demand
    soil_moisture :
  as_num temp = None \/ as_num precip = None \/ as_num power_demand = None
  \/ as_num soil_moisture = None
  \/ (as_num humidity = None
      /\ exists k t, as_num temp = Some (k, t) /\ 90 < t) ->
  exists e,
    _calculate_risk_score self temp precip humidity power_demand soil_moisture
    = Raise e.
Proof.
  intros H. unfold _calculate_risk_score. cbv zeta.
  destruct H as [H|[H|[H|[H|(H & k & t & Hk & Ht)]]]].
  1-4: unfold py_ge, py_gt, py_lt, py_le, py_and; run_try.
  assert (E : py_and (py_gt temp (VNum KInt 90))
                     (py_gt humidity (VNum KInt 70))
              = py_gt humidity (VNum KInt 70)).
  { unfold py_gt at 1. unfold py_compare. rewrite Hk. cbn [as_num].
    unfold py_and. cbn [bind].
    destruct (Qltb_reflect 90 t); [reflexivity|contradiction]. }
  rewrite E. unfold py_ge, py_gt, py_lt, py_le, py_and. run_try.
Qed.

Lemma coercion_fails_raises self now input_data :
  coercion_fails input_data ->
  exists e, predict_compound_risk_try self now input_data = Raise e.
Proof.
  intros H. unfold predict_compound_risk_try. cbv zeta.
  destruct (calculate_risk_score_raises self _ _ _ _ _ H) as [e ->].
  eexists; reflexivity.
Qed.

(** The [try] block of the engine that [__init__] builds raises on
    these inputs and on no other. *)
Lemma raises_iff_coercion_fails now input_data :
  (exists e, predict_compound_risk_try __init__ now input_data = Raise e)
  <-> coercion_fails input_data.
Proof.
  split; [|apply coercion_fails_raises].
  intros [e He]. unfold coercion_fails. cbv zeta.
  destruct (as_num (get input_data "temperature" _)) as [[kt t]|] eqn:Ht;
    [|now left].
  destruct (as_num (get input_data "precipitation" _)) as [[kp p]|] eqn:Hp;
    [|now right; left].
  destruct (as_num (get input_data "power_demand" _)) as [[kd d]|] eqn:Hd;
    [|now right; right; left].
  destruct (as_num (get input_data "soil_moisture" _)) as [[ks s]|] eqn:Hs;
    [|now right; right; right; left].
  assert (forall h,
            reads input_data "humidity" (VNum KInt 50) h
            \/ Qltb 90 t = false -> False) as Hok.
  { intros h Hh.
    rewrite (numeric_try_humidity now input_data t p h d s) in He;
      try (eexists; eassumption); [discriminate|exact Hh]. }
  destruct (as_num (get input_data "humidity" (VNum KInt 50)))
    as [[kh h]|] eqn:Hh.
  - destruct (Hok h). left. now exists kh.
  - destruct (Qltb_reflect 90 t) as [H90|H90].
    + do 4 right. split; [reflexivity|]. now exists kt, t.
    + destruct (Hok 0). now right.
Qed.

Lemma get_risk_level_loop_in items score level :
  _get_risk_level_loop items score = Ok level ->
  In level (map fst items ++ ["Extreme"]).
Proof.
  induction items as [|[name [lo hi]] rest IH]; cbn [_get_risk_level_loop].
  - intros [= <-]. now left.
  - destruct (py_and _ _) as [[|]|e]; cbn [bind].
    + intros [= <-]. now left.
    + intros Hr. right. now apply IH.
    + discriminate.
Qed.

(** ** Monotonicity in the temperature *)




(** Discharges [numeric_observation] on a literal input. *)
Ltac numeric_readings := repeat split; eexists; reflexivity.

(** * The claims *)











(** C5.  For every input on which a numeric use of a reading fails
    ([coercion_fails]: a temperature, precipitation, power demand or
    soil moisture that is not a number, or such a humidity when it is
    compared; by [raises_iff_coercion_fails] these are the inputs on
    which the [try] block raises), [predict_compound_risk] raises nothing
    to the caller, being a total function to dicts, and returns the
    degraded result: an [error] message, [risk_score] 0.0 and
    [risk_level] ['Unknown'], which is none of the levels Low, Moderate,
    High, Extreme that [_get_risk_level] can return. *)
Theorem failed_coercion_gives_degraded_result now input_data :
  coercion_fails input_data ->
  exists message,
    predict_compound_risk __init__ now input_data
    = <["error" := VStr ("Risk prediction failed: " +:+ message)]>
      (<["risk_score" := VNum KFloat 0.0]>
      (<["risk_level" := VStr "Unknown"]> ∅))
    /\ ~ In "Unknown" Spec.levels
    /\ forall score level,
         _get_risk_level __init__ score = Ok level ->
         In level Spec.levels /\ level <> "Unknown".
Proof.
  intros H.
  destruct (coercion_fails_raises __init__ now input_data H) as [e He].
  exists (str e). unfold predict_compound_risk. rewrite He.
  split; [reflexivity|].
  assert (Hu : ~ In "Unknown" Spec.levels).
  { cbn. intros [H'|[H'|[H'|[H'|[]]]]]; discriminate. }
  split; [exact Hu|].
  intros score level Hl. apply get_risk_level_loop_in in Hl. cbn in Hl.
  assert (In level Spec.levels) as Hin.
  { cbn. destruct Hl as [Hl|[Hl|[Hl|[Hl|[Hl|[]]]]]]; auto. }
  split; [exact Hin|]. intros ->. contradiction.
Qed.

Lemma failed_coercion_gives_degraded_result_witness :
  coercion_fails non_numeric_temperature
  /\ exists message,
       predict_compound_risk __init__ sample_time non_numeric_temperature
       = <["error" := VStr ("Risk prediction failed: " +:+ message)]>
         (<["risk_score" := VNum KFloat 0.0]>
         (<["risk_level" := VStr "Unknown"]> ∅))
       /\ ~ In "Unknown" Spec.levels
       /\ forall score level,
            _get_risk_level __init__ score = Ok level ->
            In level Spec.levels /\ level <> "Unknown".
Proof.
  assert (H : coercion_fails non_numeric_temperature)
    by (left; reflexivity).
  split; [exact H|].
  exact (failed_coercion_gives_degraded_result sample_time
           non_numeric_temperature H).
Defined.



(** C7, as stated, fails.  At 103 degrees with 0.1 inch of rain the
    drought stress applies (temp > 95 and precip < 0.5), so the
    environmental stress of scenario A is 0.09 and not 0, and the total
    is about 0.898 and not 0.808. *)
Lemma scenario_a_has_drought_stress : ~ scenario_a_as_derived sample_time.
Proof.
  intros (_ & _ & _ & H & _). vm_compute in H. discriminate.
Qed.

(** C7, amended.  Scenario A (temperature 103, precipitation 0.1,
    humidity 65, power demand 1850, soil moisture 30): heat risk
    8/15 + 0.2 = 0.733, infrastructure risk 0.125, compound multiplier
    1.0, drought stress 0.3, so environmental stress 0.09 and the total
    is about 0.898; the risk level is Extreme, and [is_anomaly] is false
    because 103 > 103 fails and so do the four other conditions. *)
Theorem scenario_a_computation now :
  let heat_risk := Numeric.heat_risk 103 in
  let total_risk := Numeric.total_risk 103 0.1 65 1850 30 in
  let assessment := predict_compound_risk __init__ now scenario_a in
  heat_risk == 11 # 15
  /\ round3 heat_risk == 0.733
  /\ Numeric.infra_risk 1850 == 0.125
  /\ Numeric.compound_multiplier 103 1850 == 1.0
  /\ Numeric.drought_stress 103 0.1 == 0.3
  /\ Numeric.environmental_stress 103 0.1 65 30 == 0.09
  /\ total_risk == 539 # 600
  /\ round3 total_risk == 0.898
  /\ assessment !! "risk_score" = Some (VNum KFloat 0.898)
  /\ assessment !! "risk_level" = Some (VStr "Extreme")
  /\ assessment !! "is_anomaly" = Some (VBool false)
  /\ Qltb 103 103 = false.
Proof.
  cbv zeta.
  assert (H : numeric_observation scenario_a 103 0.1 65 1850 30)
    by numeric_readings.
  rewrite (numeric_predict now _ _ _ _ _ _ H).
  repeat split; vm_compute; reflexivity.
Qed.



(** C9.  On the error path (the [try] block raised) the returned dict
    has the three keys [error], [risk_score] and [risk_level] and none of
    [is_anomaly], [recommendations], [confidence],
    [infrastructure_impact], [analysis_time]; a success result has these
    five besides [risk_score] and [risk_level], and no [error]. *)
Theorem error_result_has_three_keys self now input_data :
  let assessment := predict_compound_risk self now input_data in
  match predict_compound_risk_try self now input_data with
  | Raise e =>
      dom assessment = {["error"; "risk_score"; "risk_level"]}
      /\ assessment !! "is_anomaly" = None
      /\ assessment !! "recommendations" = None
      /\ assessment !! "confidence" = None
      /\ assessment !! "infrastructure_impact" = None
      /\ assessment !! "analysis_time" = None
  | Ok _ =>
      dom assessment
      = {["risk_score"; "risk_level"; "is_anomaly"; "recommendations";
          "confidence"; "infrastructure_impact"; "analysis_time"]}
      /\ assessment !! "error" = None
  end.
Proof.
  cbv zeta. unfold predict_compound_risk.
  destruct (predict_compound_risk_try self now input_data) as [r|e] eqn:E.
  - unfold predict_compound_risk_try in E. cbv zeta in E. revert E.
    repeat (match goal with
            | |- bind ?m _ = _ -> _ => destruct m; cbn [bind]
            end; try discriminate).
    intros [= <-]. split; [|reflexivity].
    rewrite !dom_insert_L, dom_empty_L. set_solver.
  - split; [|repeat split]. rewrite !dom_insert_L, dom_empty_L. set_solver.
Qed.



(** ** Further examples *)

(** A humidity that is not a number is never compared when the
    temperature is at most 90: both [and] tests stop at the temperature,
    and the result is a normal assessment. *)
Example non_numeric_humidity_is_not_read :
  predict_compound_risk __init__ sample_time non_numeric_humidity
  !! "risk_level" = Some (VStr "Low")
  /\ predict_compound_risk __init__ sample_time non_numeric_humidity
     !! "error" = None.
Proof. split; vm_compute; reflexivity. Qed.

(** The error message of a temperature given as a string. *)
Example non_numeric_temperature_message :
  predict_compound_risk __init__ sample_time non_numeric_temperature
  !! "error"
  = Some (VStr ("Risk prediction failed: "
                +:+ "'>=' not supported between instances of 'str' and 'int'")).
Proof. vm_compute. reflexivity. Qed.

(** * Further properties *)

(** ** The infrastructure impact *)

Lemma infrastructure_impact_cases power_demand :
  (1900 < power_demand
   /\ Numeric.infrastructure_impact power_demand = "Critical")
  \/ (1800 < power_demand <= 1900
      /\ Numeric.infrastructure_impact power_demand = "High")
  \/ (1600 < power_demand <= 1800
      /\ Numeric.infrastructure_impact power_demand = "Moderate")
  \/ (power_demand <= 1600
      /\ Numeric.infrastructure_impact power_demand = "Low").
Proof.
  unfold Numeric.infrastructure_impact.
  destruct (Qltb_reflect 1900 power_demand); [left; now split|].
  destruct (Qltb_reflect 1800 power_demand);
    [right; left; split; [lra|reflexivity]|].
  destruct (Qltb_reflect 1600 power_demand);
    [right; right; left; split; [lra|reflexivity]|].
  right; right; right. split; [lra|reflexivity].
Qed.











(** ** Rounding error *)



(** ** Bounds on the score *)

Lemma risk_level_cases score :
  0 <= score ->
  let level := Numeric.risk_level (risk_thresholds __init__) score in
  (score < 0.3 /\ level = "Low")
  \/ (0.3 <= score < 0.6 /\ level = "Moderate")
  \/ (0.6 <= score < 0.8 /\ level = "High")
  \/ (0.8 <= score /\ level = "Extreme").
Proof.
  intros H. cbv zeta. cbn [risk_thresholds __init__ Numeric.risk_level].
  destruct (Qle_bool_reflect 0.0 score); [|exfalso; lra].
  destruct (Qltb_reflect score 0.3); [left; now split|].
  destruct (Qle_bool_reflect 0.3 score); [|exfalso; lra].
  destruct (Qltb_reflect score 0.6);
    [right; left; split; [lra|reflexivity]|].
  destruct (Qle_bool_reflect 0.6 score); [|exfalso; lra].
  destruct (Qltb_reflect score 0.8);
    [right; right; left; split; [lra|reflexivity]|].
  right; right; right. split; [lra|].
  destruct (Qle_bool 0.8 score && Qltb score 1.0); reflexivity.
Qed.

Lemma total_risk_lower temp precip humidity power_demand soil_moisture :
  Numeric.heat_risk temp
  + Numeric.environmental_stress temp precip humidity soil_moisture
  <= Numeric.total_risk temp precip humidity power_demand soil_moisture
  /\ Numeric.flood_risk precip
     <= Numeric.total_risk temp precip humidity power_demand soil_moisture.
Proof.
  unfold Numeric.total_risk, Numeric.primary_risk,
    Numeric.infrastructure_contribution, Numeric.compound_multiplier.
  pose proof (heat_risk_range temp).
  pose proof (infra_risk_range power_demand).
  pose proof (flood_risk_range precip).
  pose proof (environmental_stress_nonneg temp precip humidity soil_moisture).
  generalize dependent (Numeric.heat_risk temp).
  generalize dependent (Numeric.infra_risk power_demand).
  generalize dependent (Numeric.flood_risk precip).
  generalize dependent
    (Numeric.environmental_stress temp precip humidity soil_moisture).
  intros. split; qsolve.
Qed.

Lemma risk_score_at_least bound temp precip humidity power_demand
    soil_moisture :
  bound <= 1 ->
  bound <= Numeric.heat_risk temp
           + Numeric.environmental_stress temp precip humidity soil_moisture
  \/ bound <= Numeric.flood_risk precip ->
  bound <= Numeric.risk_score temp precip humidity power_demand soil_moisture.
Proof.
  intros Hb H.
  pose proof (total_risk_lower temp precip humidity power_demand
                               soil_moisture) as [H1 H2].
  unfold Numeric.risk_score.
  generalize dependent
    (Numeric.total_risk temp precip humidity power_demand soil_moisture).
  intros. qsolve.
Qed.



Lemma heat_risk_above_103 temp :
  103 < temp -> (11 # 15) <= Numeric.heat_risk temp.
Proof. intros H. unfold Numeric.heat_risk. cbv zeta. qsolve. Qed.

Lemma heat_risk_above_100 temp :
  100 < temp -> (8 # 15) <= Numeric.heat_risk temp.
Proof. intros H. unfold Numeric.heat_risk. cbv zeta. qsolve. Qed.

Lemma heat_risk_below_95 temp : temp < 95 -> Numeric.heat_risk temp == 0.
Proof. intros H. unfold Numeric.heat_risk. cbv zeta. qsolve. Qed.

Lemma flood_risk_from p bound :
  2 <= bound -> bound <= 5 -> bound <= p ->
  bound * (1 # 5) <= Numeric.flood_risk p.
Proof. intros H2 H5 H. unfold Numeric.flood_risk. qsolve. Qed.

Lemma flood_risk_below_2 precip :
  precip < 2.0 -> Numeric.flood_risk precip == 0.
Proof. intros H. unfold Numeric.flood_risk. qsolve. Qed.

Lemma humid_heat_stress temp precip humidity soil_moisture :
  90 < temp -> 70 < humidity ->
  0.09 <= Numeric.environmental_stress temp precip humidity soil_moisture.
Proof.
  intros Ht Hh.
  unfold Numeric.environmental_stress, Numeric.drought_stress,
    Numeric.humidity_factor, Numeric.soil_factor.
  qsolve.
Qed.

Lemma environmental_stress_without_heat temp precip humidity soil_moisture :
  temp <= 95 ->
  Numeric.environmental_stress temp precip humidity soil_moisture <= 0.15.
Proof.
  intros Ht.
  unfold Numeric.environmental_stress, Numeric.drought_stress,
    Numeric.humidity_factor, Numeric.soil_factor.
  qsolve.
Qed.

Lemma anomaly_score_bound temp precip humidity power_demand soil_moisture :
  Spec.anomaly temp precip humidity power_demand ->
  power_demand <= 1900 ->
  0.6 <= Numeric.risk_score temp precip humidity power_demand soil_moisture.
Proof.
  intros Ha Hd. apply risk_score_at_least; [lra|].
  pose proof (environmental_stress_nonneg temp precip humidity soil_moisture).
  destruct Ha as [Ha|[Ha|[Ha|[[Ht Hh]|[Ht Hp]]]]].
  - left. pose proof (heat_risk_above_103 temp Ha). lra.
  - right. pose proof (flood_risk_from precip 4 ltac:(lra) ltac:(lra)
                         ltac:(lra)). lra.
  - exfalso. lra.
  - left. pose proof (heat_risk_above_100 temp Ht).
    pose proof (humid_heat_stress temp precip humidity soil_moisture
                  ltac:(lra) ltac:(lra)). lra.
  - right. pose proof (flood_risk_from precip 3 ltac:(lra) ltac:(lra)
                         ltac:(lra)). lra.
Qed.

Lemma total_risk_without_heat_and_flood temp precip humidity power_demand
    soil_moisture :
  temp < 95 -> precip < 2.0 ->
  Numeric.total_risk temp precip humidity power_demand soil_moisture
  == Numeric.infra_risk power_demand * 0.6
     + Numeric.environmental_stress temp precip humidity soil_moisture.
Proof.
  intros Ht Hp.
  unfold Numeric.total_risk, Numeric.primary_risk,
    Numeric.infrastructure_contribution, Numeric.compound_multiplier.
  pose proof (heat_risk_below_95 temp Ht).
  pose proof (flood_risk_below_2 precip Hp).
  generalize dependent (Numeric.heat_risk temp).
  generalize dependent (Numeric.infra_risk power_demand).
  generalize dependent (Numeric.flood_risk precip).
  generalize dependent
    (Numeric.environmental_stress temp precip humidity soil_moisture).
  intros. qsolve.
Qed.

(** ** The fields of a numeric assessment *)

Section Fields.
Variables (now : string) (temp precip humidity power_demand soil_moisture : Q).
Let assessment :=
  numeric_assessment now temp precip humidity power_demand soil_moisture.
Let score :=
  Numeric.risk_score temp precip humidity power_demand soil_moisture.

Lemma assessment_risk_level :
  assessment !! "risk_level"
  = Some (VStr (Numeric.risk_level (risk_thresholds __init__) score)).
Proof. reflexivity. Qed.

Lemma assessment_is_anomaly :
  assessment !! "is_anomaly"
  = Some (VBool (Numeric.is_anomaly temp precip humidity power_demand)).
Proof. reflexivity. Qed.

Lemma assessment_recommendations :
  assessment !! "recommendations"
  = Some (VList (Numeric.recommendations temp precip power_demand
                   (Numeric.risk_level (risk_thresholds __init__) score))).
Proof. reflexivity. Qed.

Lemma assessment_confidence :
  assessment !! "confidence"
  = Some (VNum KFloat (round3 (Numeric.confidence score))).
Proof. reflexivity. Qed.

Lemma assessment_infrastructure_impact :
  assessment !! "infrastructure_impact"
  = Some (VStr (Numeric.infrastructure_impact power_demand)).
Proof. reflexivity. Qed.
End Fields.

(** Rewrites the result of a numeric observation into its fields. *)
Ltac fields H :=
  rewrite ?(numeric_predict _ _ _ _ _ _ _ H) in *;
  rewrite ?assessment_risk_score, ?assessment_risk_level,
    ?assessment_is_anomaly, ?assessment_recommendations,
    ?assessment_confidence, ?assessment_infrastructure_impact in *.

(** X2.  A Critical infrastructure impact never comes alone: the
    same result has [is_anomaly] true and the grid-stress string among
    its recommendations. *)
Theorem critical_impact_is_anomalous now input_data temp precip humidity
    power_demand soil_moisture :
  numeric_observation input_data temp precip humidity power_demand
                      soil_moisture ->
  predict_compound_risk __init__ now input_data !! "infrastructure_impact"
  = Some (VStr "Critical") ->
  predict_compound_risk __init__ now input_data !! "is_anomaly"
  = Some (VBool true)
  /\ exists recommendations,
       predict_compound_risk __init__ now input_data !! "recommendations"
       = Some (VList recommendations)
       /\ In grid_stress recommendations.
Proof.
  intros H Hc. fields H. injection Hc as Hc.
  assert (1900 < power_demand) as Hd.
  { destruct (infrastructure_impact_cases power_demand)
      as [[Hd _]|[[_ E]|[[_ E]|[_ E]]]]; [exact Hd|..];
      rewrite E in Hc; discriminate. }
  split.
  - do 2 f_equal. apply is_anomaly_spec. right; right; left. exact Hd.
  - eexists. split; [reflexivity|].
    rewrite recommendations_spec. unfold Spec.recommendationList.
    destruct (Qltb_reflect 1850 power_demand); [|exfalso; lra].
    apply in_or_app; right. apply in_or_app; right.
    apply in_or_app; left. now left.
Qed.

Lemma critical_impact_is_anomalous_witness :
  (numeric_observation grid_only_1950 75 0.1 50 1950 30
   /\ predict_compound_risk __init__ sample_time grid_only_1950
      !! "infrastructure_impact" = Some (VStr "Critical"))
  /\ predict_compound_risk __init__ sample_time grid_only_1950 !! "is_anomaly"
     = Some (VBool true)
  /\ exists recommendations,
       predict_compound_risk __init__ sample_time grid_only_1950
       !! "recommendations" = Some (VList recommendations)
       /\ In grid_stress recommendations.
Proof.
  assert (H : numeric_observation grid_only_1950 75 0.1 50 1950 30)
    by numeric_readings.
  assert (Hc : predict_compound_risk __init__ sample_time grid_only_1950
               !! "infrastructure_impact" = Some (VStr "Critical"))
    by (vm_compute; reflexivity).
  split; [exact (conj H Hc)|].
  exact (critical_impact_is_anomalous sample_time grid_only_1950
           75 0.1 50 1950 30 H Hc).
Defined.





Lemma score_level temp precip humidity power_demand soil_moisture :
  let score :=
    Numeric.risk_score temp precip humidity power_demand soil_moisture in
  let level := Numeric.risk_level (risk_thresholds __init__) score in
  (score < 0.3 /\ level = "Low")
  \/ (0.3 <= score < 0.6 /\ level = "Moderate")
  \/ (0.6 <= score < 0.8 /\ level = "High")
  \/ (0.8 <= score /\ level = "Extreme").
Proof. apply risk_level_cases, risk_score_range. Qed.



(** X7.  An anomaly that the power demand does not cause (demand
    at most 1900) always comes with the level High or Extreme. *)
Theorem anomaly_without_grid_stress_is_high_or_extreme now input_data temp
    precip humidity power_demand soil_moisture :
  numeric_observation input_data temp precip humidity power_demand
                      soil_moisture ->
  predict_compound_risk __init__ now input_data !! "is_anomaly"
  = Some (VBool true) ->
  power_demand <= 1900 ->
  predict_compound_risk __init__ now input_data !! "risk_level"
  = Some (VStr "High")
  \/ predict_compound_risk __init__ now input_data !! "risk_level"
     = Some (VStr "Extreme").
Proof.
  intros H Ha Hd. fields H. injection Ha as Ha. apply is_anomaly_spec in Ha.
  pose proof (anomaly_score_bound temp precip humidity power_demand
                soil_moisture Ha Hd) as Hs.
  destruct (score_level temp precip humidity power_demand soil_moisture)
    as [[Hl _]|[[Hl _]|[[_ E]|[_ E]]]]; [exfalso; lra..| |];
    rewrite E; [now left|now right].
Qed.

Lemma anomaly_without_grid_stress_is_high_or_extreme_witness :
  (numeric_observation heat_106 106 0.1 50 1500 30
   /\ predict_compound_risk __init__ sample_time heat_106 !! "is_anomaly"
      = Some (VBool true)
   /\ 1500 <= 1900)
  /\ (predict_compound_risk __init__ sample_time heat_106 !! "risk_level"
      = Some (VStr "High")
      \/ predict_compound_risk __init__ sample_time heat_106 !! "risk_level"
         = Some (VStr "Extreme")).
Proof.
  assert (H : numeric_observation heat_106 106 0.1 50 1500 30)
    by numeric_readings.
  assert (Ha : predict_compound_risk __init__ sample_time heat_106
               !! "is_anomaly" = Some (VBool true))
    by (vm_compute; reflexivity).
  assert (Hd : 1500 <= 1900) by (vm_compute; discriminate).
  split; [exact (conj H (conj Ha Hd))|].
  exact (anomaly_without_grid_stress_is_high_or_extreme sample_time heat_106
           106 0.1 50 1500 30 H Ha Hd).
Defined.

(** X8.  Without heat (temperature under 95) and without flood
    (under 2.0 inches) the returned score is at most 0.75 and the level
    is never Extreme, however high the power demand is. *)
Theorem grid_stress_alone_is_never_extreme now input_data temp precip
    humidity power_demand soil_moisture :
  numeric_observation input_data temp precip humidity power_demand
                      soil_moisture ->
  temp < 95 -> precip < 2.0 ->
  exists score level,
    predict_compound_risk __init__ now input_data !! "risk_score"
    = Some (VNum KFloat score)
    /\ predict_compound_risk __init__ now input_data !! "risk_level"
       = Some (VStr level)
    /\ score <= 0.75
    /\ level <> "Extreme".
Proof.
  intros H Ht Hp. fields H. do 2 eexists.
  split; [reflexivity|]. split; [reflexivity|].
  assert (Numeric.risk_score temp precip humidity power_demand soil_moisture
          <= 0.75) as Hs.
  { unfold Numeric.risk_score.
    pose proof (total_risk_without_heat_and_flood temp precip humidity
                  power_demand soil_moisture Ht Hp) as Ht'.
    pose proof (infra_risk_range power_demand).
    assert (Numeric.environmental_stress temp precip humidity soil_moisture
            <= 0.15)
      by (apply environmental_stress_without_heat; lra).
    generalize dependent
      (Numeric.total_risk temp precip humidity power_demand soil_moisture).
    intros. qsolve. }
  split.
  - apply Qle_trans with (round3 0.75); [now apply round3_le|].
    vm_compute. discriminate.
  - destruct (score_level temp precip humidity power_demand soil_moisture)
      as [[_ E]|[[_ E]|[[_ E]|[Hl _]]]]; [rewrite E; discriminate..|].
    exfalso. lra.
Qed.

Lemma grid_stress_alone_is_never_extreme_witness :
  (numeric_observation grid_only_2500 75 0.1 50 2500 30
   /\ 75 < 95 /\ 0.1 < 2.0)
  /\ exists score level,
       predict_compound_risk __init__ sample_time grid_only_2500
       !! "risk_score" = Some (VNum KFloat score)
       /\ predict_compound_risk __init__ sample_time grid_only_2500
          !! "risk_level" = Some (VStr level)
       /\ score <= 0.75
       /\ level <> "Extreme".
Proof.
  assert (H : numeric_observation grid_only_2500 75 0.1 50 2500 30)
    by numeric_readings.
  assert (Ht : 75 < 95) by reflexivity.
  assert (Hp : 0.1 < 2.0) by reflexivity.
  split; [exact (conj H (conj Ht Hp))|].
  exact (grid_stress_alone_is_never_extreme sample_time grid_only_2500
           75 0.1 50 2500 30 H Ht Hp).
Defined.

Lemma environmental_stress_calm temp precip humidity soil_moisture :
  temp < 95 -> temp <= 90 \/ humidity <= 70 -> 20 <= soil_moisture ->
  Numeric.environmental_stress temp precip humidity soil_moisture == 0.
Proof.
  intros Ht Hh Hs.
  unfold Numeric.environmental_stress, Numeric.drought_stress,
    Numeric.humidity_factor, Numeric.soil_factor.
  qsolve.
Qed.

Lemma risk_score_calm temp precip humidity power_demand soil_moisture :
  temp < 95 -> precip < 2.0 -> temp <= 90 \/ humidity <= 70 ->
  20 <= soil_moisture ->
  Numeric.risk_score temp precip humidity power_demand soil_moisture
  == Numeric.infra_risk power_demand * 0.6.
Proof.
  intros Ht Hp Hh Hs. unfold Numeric.risk_score.
  pose proof (total_risk_without_heat_and_flood temp precip humidity
                power_demand soil_moisture Ht Hp) as Ht'.
  pose proof (environmental_stress_calm temp precip humidity soil_moisture
                Ht Hh Hs) as He.
  pose proof (infra_risk_range power_demand).
  generalize dependent
    (Numeric.total_risk temp precip humidity power_demand soil_moisture).
  intros. qsolve.
Qed.

(** X9.  A power demand between 1900 and 2000 in otherwise calm
    conditions gives a Critical infrastructure impact and [is_anomaly]
    true together with the risk level Low. *)
Theorem critical_grid_can_be_rated_low now input_data temp precip humidity
    power_demand soil_moisture :
  numeric_observation input_data temp precip humidity power_demand
                      soil_moisture ->
  temp < 95 -> precip < 2.0 -> temp <= 90 \/ humidity <= 70 ->
  20 <= soil_moisture ->
  1900 < power_demand -> power_demand < 2000 ->
  predict_compound_risk __init__ now input_data !! "infrastructure_impact"
  = Some (VStr "Critical")
  /\ predict_compound_risk __init__ now input_data !! "is_anomaly"
     = Some (VBool true)
  /\ predict_compound_risk __init__ now input_data !! "risk_level"
     = Some (VStr "Low").
Proof.
  intros H Ht Hp Hh Hs Hd Hd'. fields H.
  split; [|split]; do 2 f_equal.
  - destruct (infrastructure_impact_cases power_demand)
      as [[_ E]|[[Hx _]|[[Hx _]|[Hx _]]]]; [exact E|exfalso; lra..].
  - apply is_anomaly_spec. right; right; left. exact Hd.
  - pose proof (risk_score_calm temp precip humidity power_demand
                  soil_moisture Ht Hp Hh Hs) as E.
    assert (Numeric.infra_risk power_demand < 0.5) as Hi
      by (unfold Numeric.infra_risk; qsolve).
    destruct (score_level temp precip humidity power_demand soil_moisture)
      as [[_ El]|[[Hl _]|[[Hl _]|[Hl _]]]]; [exact El|exfalso; lra..].
Qed.

Lemma critical_grid_can_be_rated_low_witness :
  (numeric_observation grid_only_1950 75 0.1 50 1950 30
   /\ 75 < 95 /\ 0.1 < 2.0 /\ (75 <= 90 \/ 50 <= 70) /\ 20 <= 30
   /\ 1900 < 1950 /\ 1950 < 2000)
  /\ predict_compound_risk __init__ sample_time grid_only_1950
     !! "infrastructure_impact" = Some (VStr "Critical")
  /\ predict_compound_risk __init__ sample_time grid_only_1950 !! "is_anomaly"
     = Some (VBool true)
  /\ predict_compound_risk __init__ sample_time grid_only_1950 !! "risk_level"
     = Some (VStr "Low").
Proof.
  assert (H : numeric_observation grid_only_1950 75 0.1 50 1950 30)
    by numeric_readings.
  assert (Ht : 75 < 95) by reflexivity.
  assert (Hp : 0.1 < 2.0) by reflexivity.
  assert (Hh : 75 <= 90 \/ 50 <= 70) by (left; vm_compute; discriminate).
  assert (Hs : 20 <= 30) by (vm_compute; discriminate).
  assert (Hd : 1900 < 1950) by reflexivity.
  assert (Hd' : 1950 < 2000) by reflexivity.
  split;
    [exact (conj H (conj Ht (conj Hp (conj Hh (conj Hs (conj Hd Hd'))))))|].
  exact (critical_grid_can_be_rated_low sample_time grid_only_1950
           75 0.1 50 1950 30 H Ht Hp Hh Hs Hd Hd').
Defined.

(** X10.  In calm conditions (temperature under 95, under 2.0 inches
    of rain, power demand under 1800, soil moisture of 20 or more, and
    temperature at most 90 or humidity at most 70) the result is the
    resting one: [risk_score] 0.0, Low, [confidence] 0.7, no anomaly and
    no recommendation.  The empty input, where every reading is its
    default, is such an observation. *)
Theorem calm_conditions_score_zero now input_data temp precip humidity
    power_demand soil_moisture :
  numeric_observation input_data temp precip humidity power_demand
                      soil_moisture ->
  temp < 95 -> precip < 2.0 -> temp <= 90 \/ humidity <= 70 ->
  20 <= soil_moisture -> power_demand < 1800 ->
  predict_compound_risk __init__ now input_data !! "risk_score"
  = Some (VNum KFloat 0.000)
  /\ predict_compound_risk __init__ now input_data !! "risk_level"
     = Some (VStr "Low")
  /\ predict_compound_risk __init__ now input_data !! "confidence"
     = Some (VNum KFloat 0.700)
  /\ predict_compound_risk __init__ now input_data !! "is_anomaly"
     = Some (VBool false)
  /\ predict_compound_risk __init__ now input_data !! "recommendations"
     = Some (VList []).
Proof.
  intros H Ht Hp Hh Hs Hd. fields H.
  assert (Numeric.risk_score temp precip humidity power_demand soil_moisture
          == 0) as E.
  { rewrite (risk_score_calm temp precip humidity power_demand soil_moisture
               Ht Hp Hh Hs).
    assert (Numeric.infra_risk power_demand == 0) as ->
      by (unfold Numeric.infra_risk; qsolve).
    reflexivity. }
  assert (Numeric.risk_level (risk_thresholds __init__)
            (Numeric.risk_score temp precip humidity power_demand
                                soil_moisture) = "Low") as El.
  { destruct (score_level temp precip humidity power_demand soil_moisture)
      as [[_ El]|[[Hl _]|[[Hl _]|[Hl _]]]]; [exact El|exfalso; lra..]. }
  repeat split.
  - now rewrite (round3_comp _ 0 E).
  - now rewrite El.
  - assert (Numeric.confidence
              (Numeric.risk_score temp precip humidity power_demand
                                  soil_moisture) == 0.7) as Hc.
    { generalize dependent
        (Numeric.risk_score temp precip humidity power_demand soil_moisture).
      intros. unfold Numeric.confidence. qsolve. }
    now rewrite (round3_comp _ 0.7 Hc).
  - do 2 f_equal.
    destruct (Numeric.is_anomaly temp precip humidity power_demand) eqn:Ha;
      [|reflexivity].
    apply is_anomaly_spec in Ha. unfold Spec.anomaly in Ha. exfalso. lra.
  - rewrite El. do 2 f_equal.
    unfold Numeric.recommendations. cbn [String.eqb Ascii.eqb Bool.eqb].
    cbv zeta.
    destruct (Qltb_reflect 100 temp); [exfalso; lra|].
    destruct (Qltb_reflect 1850 power_demand); [exfalso; lra|].
    destruct (Qltb_reflect 3.0 precip); [exfalso; lra|].
    reflexivity.
Qed.

Lemma calm_conditions_score_zero_witness :
  (numeric_observation no_readings 75 0.1 50 1500 30
   /\ 75 < 95 /\ 0.1 < 2.0 /\ (75 <= 90 \/ 50 <= 70) /\ 20 <= 30
   /\ 1500 < 1800)
  /\ predict_compound_risk __init__ sample_time no_readings !! "risk_score"
     = Some (VNum KFloat 0.000)
  /\ predict_compound_risk __init__ sample_time no_readings !! "risk_level"
     = Some (VStr "Low")
  /\ predict_compound_risk __init__ sample_time no_readings !! "confidence"
     = Some (VNum KFloat 0.700)
  /\ predict_compound_risk __init__ sample_time no_readings !! "is_anomaly"
     = Some (VBool false)
  /\ predict_compound_risk __init__ sample_time no_readings
     !! "recommendations" = Some (VList []).
Proof.
  assert (H : numeric_observation no_readings 75 0.1 50 1500 30)
    by numeric_readings.
  assert (Ht : 75 < 95) by reflexivity.
  assert (Hp : 0.1 < 2.0) by reflexivity.
  assert (Hh : 75 <= 90 \/ 50 <= 70) by (left; vm_compute; discriminate).
  assert (Hs : 20 <= 30) by (vm_compute; discriminate).
  assert (Hd : 1500 < 1800) by reflexivity.
  split; [exact (conj H (conj Ht (conj Hp (conj Hh (conj Hs Hd)))))|].
  exact (calm_conditions_score_zero sample_time no_readings
           75 0.1 50 1500 30 H Ht Hp Hh Hs Hd).
Defined.





(** ** Keys of the input and of the result *)

Lemma get_insert_ne (input_data : gmap string value) k v key default :
  k <> key ->
  get (<[k:=v]> input_data) key default = get input_data key default.
Proof. intros Hne. unfold get. now rewrite lookup_insert_ne. Qed.

Lemma get_insert_default (input_data : gmap string value) key default :
  input_data !! key = None ->
  get (<[key:=default]> input_data) key default = get input_data key default.
Proof. intros Hn. unfold get. now rewrite lookup_insert_eq, Hn. Qed.

(** X13.  A key of [input_data] other than the five feature keys
    changes nothing in the result (a camel-case [powerDemand] is not
    read). *)
Theorem unknown_keys_are_ignored self now input_data key v :
  ~ In key feature_keys ->
  predict_compound_risk self now (<[key:=v]> input_data)
  = predict_compound_risk self now input_data.
Proof.
  intros Hk. unfold predict_compound_risk, predict_compound_risk_try.
  cbv zeta.
  rewrite !get_insert_ne; [reflexivity|..];
    intros ->; apply Hk; cbn; tauto.
Qed.

Lemma unknown_keys_are_ignored_witness :
  ~ In "powerDemand" feature_keys
  /\ predict_compound_risk __init__ sample_time camel_case_demand
     = predict_compound_risk __init__ sample_time no_readings.
Proof.
  assert (H : ~ In "powerDemand" feature_keys).
  { cbn. intros [H|[H|[H|[H|[H|[]]]]]]; discriminate. }
  split; [exact H|].
  exact (unknown_keys_are_ignored __init__ sample_time no_readings
           "powerDemand" (VNum KInt 2500) H).
Defined.

(** X14.  A missing feature key and the same key given with its
    default value give the same result. *)
Theorem missing_key_is_its_default self now input_data key :
  In key feature_keys -> input_data !! key = None ->
  predict_compound_risk self now (<[key:=feature_default key]> input_data)
  = predict_compound_risk self now input_data.
Proof.
  intros Hk Hn. unfold predict_compound_risk, predict_compound_risk_try.
  cbv zeta.
  destruct Hk as [<-|[<-|[<-|[<-|[<-|[]]]]]];
    change (feature_default _) with (VNum KInt 75)
    || change (feature_default _) with (VNum KFloat 0.1)
    || change (feature_default _) with (VNum KInt 50)
    || change (feature_default _) with (VNum KInt 1500)
    || change (feature_default _) with (VNum KInt 30);
    rewrite (get_insert_default _ _ _ Hn);
    rewrite !get_insert_ne by discriminate; reflexivity.
Qed.

Lemma missing_key_is_its_default_witness :
  (In "humidity" feature_keys /\ grid_only_1950 !! "humidity" = None)
  /\ predict_compound_risk __init__ sample_time
       (<["humidity":=feature_default "humidity"]> grid_only_1950)
     = predict_compound_risk __init__ sample_time grid_only_1950.
Proof.
  assert (Hk : In "humidity" feature_keys) by (cbn; tauto).
  assert (Hn : grid_only_1950 !! "humidity" = None) by reflexivity.
  split; [exact (conj Hk Hn)|].
  exact (missing_key_is_its_default __init__ sample_time grid_only_1950
           "humidity" Hk Hn).
Defined.

(** X15.  The clock only sets [analysis_time]: two calls on the same
    engine and input agree on every other key, on the success path and
    on the error path. *)
Theorem clock_only_sets_analysis_time self now1 now2 input_data :
  delete "analysis_time" (predict_compound_risk self now1 input_data)
  = delete "analysis_time" (predict_compound_risk self now2 input_data)
  /\ forall key, key <> "analysis_time" ->
       predict_compound_risk self now1 input_data !! key
       = predict_compound_risk self now2 input_data !! key.
Proof.
  assert (delete "analysis_time" (predict_compound_risk self now1 input_data)
          = delete "analysis_time"
              (predict_compound_risk self now2 input_data)) as E.
  { unfold predict_compound_risk, predict_compound_risk_try. cbv zeta.
    repeat match goal with
           | |- context [bind ?m _] =>
               lazymatch m with
               | context [bind _ _] => fail
               | _ => destruct m; cbn [bind]
               end
           end; reflexivity. }
  split; [exact E|].
  intros key Hk.
  rewrite <- (lookup_delete_ne _ "analysis_time" key) by congruence.
  rewrite E. now rewrite lookup_delete_ne by congruence.
Qed.

(** ** Levels *)

(** X16.  [_get_risk_level] answers Extreme exactly for the scores
    from 0.8 on and for the negative scores, which no range holds and
    which fall through the loop. *)
Theorem get_risk_level_extreme_iff k score :
  _get_risk_level __init__ (VNum k score) = Ok "Extreme"
  <-> score < 0 \/ 0.8 <= score.
Proof.
  unfold _get_risk_level. rewrite numeric_get_risk_level_loop.
  cbn [risk_thresholds __init__ Numeric.risk_level].
  qsolve; split; intros; try reflexivity; try discriminate; lra.
Qed.

(** ** The two shapes of a result *)

Lemma py_round3_Ok v w :
  py_round3 v = Ok w ->
  exists k q, as_num v = Some (k, q) /\ w = VNum k (round3 q).
Proof.
  unfold py_round3. destruct (as_num v) as [[k q]|]; [|discriminate].
  intros [= <-]. now exists k, q.
Qed.

Lemma predict_shape self now input_data :
  (exists e,
     predict_compound_risk self now input_data
     = <["error" := VStr ("Risk prediction failed: " +:+ str e)]>
       (<["risk_score" := VNum KFloat 0.0]>
       (<["risk_level" := VStr "Unknown"]> ∅)))
  \/ (exists v ks score level is_anomaly recommendations kc confidence impact,
        _get_risk_level self v = Ok level
        /\ predict_compound_risk self now input_data
           = <["risk_score" := VNum ks score]>
             (<["risk_level" := VStr level]>
             (<["is_anomaly" := VBool is_anomaly]>
             (<["recommendations" := VList recommendations]>
             (<["confidence" := VNum kc confidence]>
             (<["infrastructure_impact" := VStr impact]>
             (<["analysis_time" := VStr now]> ∅))))))).
Proof.
  unfold predict_compound_risk, predict_compound_risk_try. cbv zeta.
  destruct (_calculate_risk_score _ _ _ _ _ _) as [rs|e]; cbn [bind];
    [|left; now exists e].
  destruct (_get_risk_level self rs) as [level|e] eqn:El; cbn [bind];
    [|left; now exists e].
  destruct (_detect_anomaly _ _ _ _) as [an|e]; cbn [bind];
    [|left; now exists e].
  destruct (_generate_recommendations _ _ _ _) as [recs|e]; cbn [bind];
    [|left; now exists e].
  destruct (py_mul _ _) as [m|e]; cbn [bind]; [|left; now exists e].
  destruct (py_add _ _) as [s|e]; cbn [bind]; [|left; now exists e].
  destruct (py_min _ _) as [c|e]; cbn [bind]; [|left; now exists e].
  destruct (py_round3 rs) as [rrs|e] eqn:Er; cbn [bind];
    [|left; now exists e].
  destruct (py_round3 c) as [rc|e] eqn:Erc; cbn [bind];
    [|left; now exists e].
  destruct (_assess_infrastructure_impact _) as [imp|e]; cbn [bind];
    [|left; now exists e].
  apply py_round3_Ok in Er as (ks & q & _ & ->).
  apply py_round3_Ok in Erc as (kc & qc & _ & ->).
  right. exists rs, ks, (round3 q), level, an, recs, kc, (round3 qc), imp.
  split; [exact El|reflexivity].
Qed.

(** X17.  The [risk_level] of every result is one of Low, Moderate,
    High, Extreme, Unknown, and none of them is a key of the package
    constant [RISK_LEVELS], whose keys are upper case. *)
Theorem returned_level_is_no_key_of_RISK_LEVELS now input_data :
  exists level,
    predict_compound_risk __init__ now input_data !! "risk_level"
    = Some (VStr level)
    /\ In level ["Low"; "Moderate"; "High"; "Extreme"; "Unknown"]
    /\ RISK_LEVELS !! level = None.
Proof.
  destruct (predict_shape __init__ now input_data)
    as [(e & ->)|(v & ks & score & level & an & recs & kc & conf & imp
                  & Hl & ->)].
  - exists "Unknown". split; [reflexivity|]. split; [cbn; tauto|reflexivity].
  - exists level. split; [reflexivity|].
    apply get_risk_level_loop_in in Hl. cbn in Hl.
    destruct Hl as [<-|[<-|[<-|[<-|[<-|[]]]]]];
      (split; [cbn; tauto|reflexivity]).
Qed.

(** X18.  Assigning the attribute [heat_threshold_temp] of an engine
    changes neither [predict_compound_risk] nor [validate_system]: the
    heat test uses the literal 95. *)
Theorem heat_threshold_attribute_is_never_read self v now input_data :
  predict_compound_risk (set_heat_threshold_temp self v) now input_data
  = predict_compound_risk self now input_data
  /\ forall validation_time,
       validate_system (set_heat_threshold_temp self v) now validation_time
       = validate_system self now validation_time.
Proof. split; reflexivity. Qed.

(** ** Recommendations *)




(** ** [validate_system] *)

Lemma py_ge_threshold k a threshold :
  py_ge (VNum k a) threshold
  = match as_num threshold with
    | Some (_, b) => Ok (Qle_bool b a)
    | None =>
        Raise (TypeError
                 ("'>=' not supported between instances of '"
                  +:+ type_name (VNum k a) +:+ "' and '"
                  +:+ type_name threshold +:+ "'"))
    end.
Proof.
  unfold py_ge, py_compare. cbn [as_num].
  destruct (as_num threshold) as [[k' b]|]; reflexivity.
Qed.

(** The score of the test conditions, whatever the thresholds of the
    engine are. *)
Lemma test_conditions_score self :
  (exists e,
     _calculate_risk_score self (VNum KInt 103) (VNum KFloat 0.1)
       (VNum KInt 65) (VNum KInt 1850) (VNum KInt 30) = Raise e)
  \/ (exists score,
        _calculate_risk_score self (VNum KInt 103) (VNum KFloat 0.1)
          (VNum KInt 65) (VNum KInt 1850) (VNum KInt 30)
        = Ok (VNum KFloat score)
        /\ 0 <= score <= 1).
Proof.
  unfold _calculate_risk_score. cbv beta zeta. autorewrite with pynum.
  rewrite py_ge_threshold.
  destruct (as_num (infrastructure_critical_threshold self)) as [[ki ci]|];
    [|left; eexists; reflexivity].
  rewrite bind_Ok.
  destruct (Qle_bool ci 1850); autorewrite with pynum;
    rewrite py_ge_threshold;
    (destruct (as_num (flood_threshold_precipitation self)) as [[kf cf]|];
     [|left; eexists; reflexivity]);
    rewrite bind_Ok;
    destruct (Qle_bool cf 0.1); autorewrite with pynum;
    right; eexists; (split; [reflexivity|]);
    split; vm_compute; discriminate.
Qed.

Lemma test_conditions_result self now :
  (exists e,
     predict_compound_risk self now test_conditions
     = <["error" := VStr ("Risk prediction failed: " +:+ str e)]>
       (<["risk_score" := VNum KFloat 0.0]>
       (<["risk_level" := VStr "Unknown"]> ∅)))
  \/ (exists score level is_anomaly recommendations confidence impact,
        0.70 <= confidence <= 0.95
        /\ predict_compound_risk self now test_conditions
           = <["risk_score" := VNum KFloat score]>
             (<["risk_level" := VStr level]>
             (<["is_anomaly" := VBool is_anomaly]>
             (<["recommendations" := VList recommendations]>
             (<["confidence" := VNum KFloat confidence]>
             (<["infrastructure_impact" := VStr impact]>
             (<["analysis_time" := VStr now]> ∅))))))).
Proof.
  unfold predict_compound_risk, predict_compound_risk_try. cbv zeta.
  change (get test_conditions "temperature" _) with (VNum KInt 103).
  change (get test_conditions "precipitation" _) with (VNum KFloat 0.1).
  change (get test_conditions "humidity" _) with (VNum KInt 65).
  change (get test_conditions "power_demand" _) with (VNum KInt 1850).
  change (get test_conditions "soil_moisture" _) with (VNum KInt 30).
  destruct (test_conditions_score self) as [[e ->]|(score & -> & Hs)].
  - left. now exists e.
  - right. rewrite bind_Ok. unfold _get_risk_level.
    rewrite numeric_get_risk_level_loop, bind_Ok.
    rewrite numeric_detect_anomaly, bind_Ok.
    rewrite numeric_generate_recommendations, bind_Ok.
    rewrite numeric_assess_infrastructure_impact.
    autorewrite with pynum.
    do 6 eexists. split; [|reflexivity].
    apply round3_range; [reflexivity..|].
    now apply (confidence_range score).
Qed.

(** X20.  For every engine [validate_system] returns a report with
    the status OPERATIONAL or ISSUES_DETECTED and no [error] key, never
    the ERROR report; its checks [prediction_successful] and
    [confidence_calculated] are true on every engine, also when the
    prediction itself failed; [test_result] is the prediction. *)
Theorem validate_system_never_reports_error self now validation_time :
  let report := validate_system self now validation_time in
  exists status checks,
    report !! "system_status" = Some (RStr status)
    /\ (status = "OPERATIONAL" \/ status = "ISSUES_DETECTED")
    /\ report !! "validation_checks" = Some (RChecks checks)
    /\ In ("prediction_successful", true) checks
    /\ In ("confidence_calculated", true) checks
    /\ report !! "test_result"
       = Some (RResult (predict_compound_risk self now test_conditions))
    /\ report !! "error" = None.
Proof.
  cbv zeta. unfold validate_system, validate_system_try. cbv zeta.
  destruct (test_conditions_result self now)
    as [(e & ->)|(score & level & an & recs & conf & imp & [Hc1 Hc2] & ->)].
  - do 2 eexists. split; [vm_compute; reflexivity|].
    split; [now right|]. split; [vm_compute; reflexivity|].
    split; [now left|]. split; [do 3 right; now left|].
    split; reflexivity.
  - change (get _ "recommendations" _) with (VList recs).
    change (get _ "confidence" _) with (VNum KFloat conf).
    change (get _ "risk_level" _) with (VStr level).
    change (py_has_key _ "risk_score") with true.
    cbn [py_len bind]. rewrite py_le_num, py_le_num, py_and_Ok.
    destruct (Qle_bool_reflect 0 conf); [|exfalso; lra].
    destruct (Qle_bool_reflect conf 1); [|exfalso; lra].
    cbn [andb bind].
    set (all_passed := forallb snd _).
    do 2 eexists. split; [reflexivity|].
    split; [destruct all_passed; [now left|now right]|].
    split; [reflexivity|].
    split; [now left|]. split; [do 3 right; now left|].
    split; reflexivity.
Qed.

(** The report of the engine that [__init__] builds. *)
Example validate_system_operational now validation_time :
  validate_system __init__ now validation_time
  = <["system_status" := RStr "OPERATIONAL"]>
    (<["validation_checks" :=
         RChecks [ ("prediction_successful", true);
                   ("risk_level_assigned", true);
                   ("recommendations_generated", true);
                   ("confidence_calculated", true) ]]>
    (<["test_result" :=
         RResult (predict_compound_risk __init__ now test_conditions)]>
    (<["validation_time" := RStr validation_time]> ∅))).
Proof. vm_compute. reflexivity. Qed.

(** X21.  When the test prediction fails, [validate_system] reports
    ISSUES_DETECTED with [prediction_successful] and
    [confidence_calculated] true (the degraded result has a
    [risk_score], and the missing [confidence] defaults to 0) and the
    two other checks false. *)
Theorem failed_prediction_passes_two_checks self now validation_time :
  (exists e, predict_compound_risk_try self now test_conditions = Raise e) ->
  validate_system self now validation_time
  = <["system_status" := RStr "ISSUES_DETECTED"]>
    (<["validation_checks" :=
         RChecks [ ("prediction_successful", true);
                   ("risk_level_assigned", false);
                   ("recommendations_generated", false);
                   ("confidence_calculated", true) ]]>
    (<["test_result" :=
         RResult (predict_compound_risk self now test_conditions)]>
    (<["validation_time" := RStr validation_time]> ∅))).
Proof.
  intros [e He]. unfold validate_system, validate_system_try. cbv zeta.
  unfold predict_compound_risk. rewrite He. reflexivity.
Qed.

Lemma failed_prediction_passes_two_checks_witness :
  (exists e,
     predict_compound_risk_try
       (set_infrastructure_critical_threshold __init__ (VStr "1800"))
       sample_time test_conditions = Raise e)
  /\ validate_system
       (set_infrastructure_critical_threshold __init__ (VStr "1800"))
       sample_time sample_time
     = <["system_status" := RStr "ISSUES_DETECTED"]>
       (<["validation_checks" :=
            RChecks [ ("prediction_successful", true);
                      ("risk_level_assigned", false);
                      ("recommendations_generated", false);
                      ("confidence_calculated", true) ]]>
       (<["test_result" :=
            RResult
              (predict_compound_risk
                 (set_infrastructure_critical_threshold __init__
                    (VStr "1800"))
                 sample_time test_conditions)]>
       (<["validation_time" := RStr sample_time]> ∅))).
Proof.
  assert (H : exists e,
             predict_compound_risk_try
               (set_infrastructure_critical_threshold __init__ (VStr "1800"))
               sample_time test_conditions = Raise e)
    by (eexists; vm_compute; reflexivity).
  split; [exact H|].
  exact (failed_prediction_passes_two_checks
           (set_infrastructure_critical_threshold __init__ (VStr "1800"))
           sample_time sample_time H).
Defined.

(** ** The threshold attribute against the constant of the formula *)






